(** * STL model calculator: the material catalogue and the mesh engine

    A shallow embedding of [smc.py].  Python [float]s are IEEE binary64
    numbers, which is what Rocq's primitive floats are, so every arithmetic
    expression of the source is transcribed operator by operator.  A method
    of [STLUtils] is a function from the object's fields to an outcome (a
    value or a raised exception) and the new fields.  Console output
    ([print]) is not modelled. *)

From Stdlib Require Import ZArith List String Ascii Bool Lia.
From Stdlib.Strings Require Import Byte.
From Stdlib Require Import Floats.
Import ListNotations.

#[local] Set Warnings "-inexact-float".

(** ** The Python builtins the program uses *)

Module Py.

(** What an f-string interpolates into a [ValueError] message, or what a
    caller may pass where the annotation says [Union[str, int]]. *)
Inductive object : Type :=
| Int (n : Z)
| Bool (b : bool)
| Str (s : string)
| Float (x : float)
| NoneObj.

Inductive exn : Type :=
| TypeError
| IndexError
| StructError
| UnicodeDecodeError
| FileNotFoundError
| AttributeError
| ValueError (msg : string) (arg : object).

Inductive outcome (A : Type) : Type :=
| Return (a : A)
| Raise (e : exn).
Arguments Return {A} a.
Arguments Raise {A} e.

Definition obind {A B} (o : outcome A) (k : A -> outcome B) : outcome B :=
  match o with
  | Return a => k a
  | Raise e => Raise e
  end.

(** [isinstance(o, int)], with the integer the object compares equal to:
    [bool] is a subclass of [int], [True == 1] and [False == 0]. *)
Definition as_int (o : object) : option Z :=
  match o with
  | Int n => Some n
  | Bool b => Some (Z.b2z b)
  | _ => None
  end.

(** [isinstance(o, str)]. *)
Definition as_str (o : object) : option string :=
  match o with
  | Str s => Some s
  | _ => None
  end.

(** *** Strings (ASCII text) *)

Definition code (c : ascii) : nat := nat_of_ascii c.

Definition is_digit (c : ascii) : bool :=
  (48 <=? code c)%nat && (code c <=? 57)%nat.

Definition is_sign (c : ascii) : bool :=
  (code c =? 43)%nat || (code c =? 45)%nat.

(** The characters [str.strip()] removes: tab, line feed, vertical tab,
    form feed, carriage return, the four separators 0x1c-0x1f and space. *)
Definition is_space (c : ascii) : bool :=
  ((9 <=? code c)%nat && (code c <=? 13)%nat)
  || ((28 <=? code c)%nat && (code c <=? 32)%nat).

Definition lower_char (c : ascii) : ascii :=
  if (65 <=? code c)%nat && (code c <=? 90)%nat
  then ascii_of_nat (code c + 32)
  else c.

(** [s.lower()] *)
Fixpoint lower (s : string) : string :=
  match s with
  | EmptyString => EmptyString
  | String c s' => String (lower_char c) (lower s')
  end.

Fixpoint lstrip (s : list ascii) : list ascii :=
  match s with
  | c :: s' => if is_space c then lstrip s' else s
  | [] => []
  end.

(** [s.strip()] *)
Definition strip (s : string) : string :=
  string_of_list_ascii
    (rev (lstrip (rev (lstrip (list_ascii_of_string s))))).

(** [s.startswith(p)] *)
Definition startswith (s p : string) : bool := String.prefix p s.

(** *** [re.findall(r"[-+]?\d*\.\d+|\d+", line)] *)

(** The longest run of digits at the head of [s], and what follows it. *)
Fixpoint span_digits (s : list ascii) : list ascii * list ascii :=
  match s with
  | c :: s' =>
      if is_digit c
      then let (ds, rest) := span_digits s' in (c :: ds, rest)
      else ([], s)
  | [] => ([], [])
  end.

(** First alternative, [[-+]?\d*\.\d+], anchored at the head of [s].  The
    greedy [\d*] takes the whole run of digits; giving digits back can never
    expose the dot, and dropping the optional sign leaves the sign character
    where a digit or the dot is required, so there is nothing to backtrack
    to. *)
Definition match_decimal (s : list ascii) : option (list ascii) :=
  let (sg, s1) :=
    match s with
    | c :: t => if is_sign c then ([c], t) else ([], s)
    | [] => ([], s)
    end in
  let (ds, s2) := span_digits s1 in
  match s2 with
  | c :: s3 =>
      if (code c =? 46)%nat
      then match fst (span_digits s3) with
           | [] => None
           | fs => Some (sg ++ ds ++ c :: fs)
           end
      else None
  | [] => None
  end.

(** Second alternative, [\d+]. *)
Definition match_digits (s : list ascii) : option (list ascii) :=
  match fst (span_digits s) with
  | [] => None
  | ds => Some ds
  end.

Definition match_number (s : list ascii) : option (list ascii) :=
  match match_decimal s with
  | Some tok => Some tok
  | None => match_digits s
  end.

(** The scan: at each position try the pattern; on a match keep the token
    and resume right after it ([skip] counts the characters of the token
    still to step over), otherwise move one character on. *)
Fixpoint findall_from (skip : nat) (s : list ascii) : list string :=
  match s with
  | [] => []
  | _ :: s' =>
      match skip with
      | S k => findall_from k s'
      | O =>
          match match_number s with
          | Some tok =>
              string_of_list_ascii tok :: findall_from (List.length tok - 1) s'
          | None => findall_from 0 s'
          end
      end
  end.

Definition findall_numbers (line : string) : list string :=
  findall_from 0 (list_ascii_of_string line).

(** *** [float(token)] on the tokens the pattern yields *)

Definition digits_value (ds : list ascii) : Z :=
  fold_left (fun acc c => 10 * acc + (Z.of_nat (code c) - 48))%Z ds 0%Z.

(** The binary64 number nearest to [± n / 10^k] (ties to even). *)
Definition decimal_to_float (neg : bool) (n : Z) (k : nat) : float :=
  match n with
  | Zpos p =>
      SF2Prim (SFdiv prec emax
                 (S754_finite neg p 0)
                 (S754_finite false (Z.to_pos (10 ^ Z.of_nat k)) 0))
  | _ => if neg then (-0)%float else 0%float
  end.

(** [float(s)] for an optional sign, digits, and an optional dot followed
    by digits; any other text is rejected. *)
Definition float_of_str (s : string) : outcome float :=
  let cs := list_ascii_of_string s in
  let (neg, cs1) :=
    match cs with
    | c :: t => if is_sign c then ((code c =? 45)%nat, t) else (false, cs)
    | [] => (false, cs)
    end in
  let (ip, r1) := span_digits cs1 in
  let bad := Raise (ValueError "could not convert string to float: " (Str s)) in
  match r1 with
  | [] =>
      match ip with
      | [] => bad
      | _ => Return (decimal_to_float neg (digits_value ip) 0)
      end
  | c :: r2 =>
      if (code c =? 46)%nat then
        let (fp, r3) := span_digits r2 in
        match r3, ip ++ fp with
        | [], _ :: _ =>
            Return (decimal_to_float neg (digits_value (ip ++ fp)) (List.length fp))
        | _, _ => bad
        end
      else bad
  end.

(** [list(map(float, tokens))] *)
Fixpoint map_float (toks : list string) : outcome (list float) :=
  match toks with
  | [] => Return []
  | t :: ts =>
      obind (float_of_str t) (fun x =>
      obind (map_float ts) (fun xs => Return (x :: xs)))
  end.

(** *** [struct.unpack] *)

Inductive fmt : Type :=
| le_3f      (* "<3f" *)
| le_h       (* "<h"  *)
| native_i.  (* "@i"  *)

Definition calcsize (sig : fmt) : nat :=
  match sig with
  | le_3f => 12
  | le_h => 2
  | native_i => 4
  end.

(** The tuple [struct.unpack] returns; a 1-tuple is its only component. *)
Definition unpacked (sig : fmt) : Type :=
  match sig with
  | le_3f => (float * float * float)%type
  | le_h => Z
  | native_i => Z
  end.

Definition le_unsigned (bs : list byte) : Z :=
  fold_right (fun b acc => Z.of_N (Byte.to_N b) + 256 * acc)%Z 0%Z bs.

Definition le_signed (bs : list byte) : Z :=
  let w := le_unsigned bs in
  let bits := (8 * Z.of_nat (List.length bs))%Z in
  if (w <? 2 ^ (bits - 1))%Z then w else (w - 2 ^ bits)%Z.

(** The value of an IEEE binary32 bit pattern, as a binary64 (exact). *)
Definition float_of_bits32 (w : Z) : float :=
  let e := Z.land (Z.shiftr w 23) 255 in
  let m := Z.land w (2 ^ 23 - 1) in
  let mag :=
    if (e =? 255)%Z then (if (m =? 0)%Z then infinity else nan)
    else if (e =? 0)%Z then Z.ldexp (of_uint63 (Uint63.of_Z m)) (-149)
    else Z.ldexp (of_uint63 (Uint63.of_Z (m + 2 ^ 23))) (e - 150) in
  if Z.testbit w 31 then (- mag)%float else mag.

Definition f32 (bs : list byte) : float := float_of_bits32 (le_unsigned bs).

(** [struct.unpack(sig, s)]: the buffer must have exactly the size of the
    format.  The native byte order of "@i" is taken to be little-endian
    (x86, ARM). *)
Definition unpack (sig : fmt) (s : list byte) : outcome (unpacked sig) :=
  if (List.length s =? calcsize sig)%nat then
    match sig return outcome (unpacked sig) with
    | le_3f =>
        Return (f32 (firstn 4 s), f32 (firstn 4 (skipn 4 s)), f32 (skipn 8 s))
    | le_h => Return (le_signed s)
    | native_i => Return (le_signed s)
    end
  else Raise StructError.

(** *** Files *)

Definition filesystem : Type := string -> option (list byte).

(** A file object opened with ["rb"]: its bytes and the read position. *)
Record file : Type := mkfile { data : list byte; pos : nat }.

Definition open_rb (fs : filesystem) (path : string) : outcome file :=
  match fs path with
  | Some bs => Return (mkfile bs 0)
  | None => Raise FileNotFoundError
  end.

(** [f.read(l)]: up to [l] bytes from the position, which advances. *)
Definition read (f : file) (l : nat) : list byte * file :=
  let s := firstn l (skipn (pos f) (data f)) in
  (s, mkfile (data f) (pos f + List.length s)).

(** [f.seek(p)]; seeking past the end is allowed. *)
Definition seek (f : file) (p : nat) : file := mkfile (data f) p.

(** [f.tell()] *)
Definition tell (f : file) : nat := pos f.

(** Text mode: the file is read as ASCII text, a byte above 0x7f raises
    [UnicodeDecodeError]. *)
Fixpoint decode (bs : list byte) : outcome (list ascii) :=
  match bs with
  | [] => Return []
  | b :: bs' =>
      if (Byte.to_N b <? 128)%N
      then obind (decode bs') (fun cs => Return (ascii_of_byte b :: cs))
      else Raise UnicodeDecodeError
  end.

(** Universal newlines: "\r\n" and a lone "\r" are read as "\n". *)
Fixpoint universal_newlines (cs : list ascii) : list ascii :=
  match cs with
  | [] => []
  | c :: cs' =>
      if (code c =? 13)%nat then
        match cs' with
        | d :: cs'' =>
            if (code d =? 10)%nat
            then "010"%char :: universal_newlines cs''
            else "010"%char :: universal_newlines cs'
        | [] => ["010"%char]
        end
      else c :: universal_newlines cs'
  end.

(** Lines, each keeping its line feed; [cur] is the line being read,
    reversed. *)
Fixpoint split_lines (cur : list ascii) (cs : list ascii) : list string :=
  match cs with
  | [] =>
      match cur with
      | [] => []
      | _ => [string_of_list_ascii (rev cur)]
      end
  | c :: cs' =>
      if (code c =? 10)%nat
      then string_of_list_ascii (rev (c :: cur)) :: split_lines [] cs'
      else split_lines (c :: cur) cs'
  end.

(** [with open(path, 'r') as f: lines = f.readlines()] *)
Definition readlines (fs : filesystem) (path : string)
  : outcome (list string) :=
  match fs path with
  | Some bs =>
      obind (decode bs) (fun cs =>
      Return (split_lines [] (universal_newlines cs)))
  | None => Raise FileNotFoundError
  end.

(** [lines[i]] *)
Definition getitem {A} (l : list A) (i : nat) : outcome A :=
  match nth_error l i with
  | Some a => Return a
  | None => Raise IndexError
  end.

(** [sum(xs)]: accumulation from the left, starting at 0.  (CPython 3.12
    and later add a compensation term when the items are floats; the
    statements below hold for either, they take the sum as it is.) *)
Definition sum (xs : list float) : float :=
  fold_left PrimFloat.add xs 0%float.

(** [x ** 0.5] for a float that is not negative.  CPython hands it to the
    C library's [pow], whose result is the square root up to the rounding of
    that library: it can differ from the correctly rounded square root, taken
    here, in the last place.  No statement below says which float an area
    is, except on sample facets where the two agree. *)
Definition pow_half (x : float) : float := PrimFloat.sqrt x.

(** [min(a, b)] keeps [a] unless [b < a]; [max(a, b)] keeps [a] unless
    [b > a]. *)
Definition min (a b : float) : float := if (b <? a)%float then b else a.
Definition max (a b : float) : float := if (a <? b)%float then b else a.

End Py.

(** ** class Materials *)

Module Materials.
Import Py.

Record material : Type := mkmaterial { name : string; density : float }.

(** [self.materials_dict], in insertion order. *)
Definition materials_dict : list (Z * material) :=
  [ (1%Z, mkmaterial "ABS" 1.04);
    (2%Z, mkmaterial "PLA" 1.25);
    (3%Z, mkmaterial "PETG" 1.27);
    (4%Z, mkmaterial "PETG-CF" 1.25) ].

(** [d[k]] when [k in d]. *)
Fixpoint lookup (k : Z) (d : list (Z * material)) : option material :=
  match d with
  | [] => None
  | (k', m) :: d' => if (k' =? k)%Z then Some m else lookup k d'
  end.

(** The [for key, value in d.items()] loop of [get_density]: the density of
    the first entry whose lowered name is the lowered identifier. *)
Fixpoint search_name (identifier : string) (items : list (Z * material))
  : option float :=
  match items with
  | [] => None
  | (_, value) :: items' =>
      if String.eqb (lower (name value)) (lower identifier)
      then Some (density value)
      else search_name identifier items'
  end.

Definition get_density (identifier : object) : outcome float :=
  let otherwise :=
    match as_str identifier with
    | Some text =>
        match search_name text materials_dict with
        | Some d => Return d
        | None => Raise (ValueError "Invalid material name: " identifier)
        end
    | None => Raise (ValueError "Invalid material identifier: " identifier)
    end in
  match as_int identifier with
  | Some k =>
      match lookup k materials_dict with
      | Some m => Return (density m)
      | None => otherwise
      end
  | None => otherwise
  end.

End Materials.

(** ** class STLUtils *)

Module STLUtils.
Import Py.
#[local] Open Scope float_scope.

(** A vertex as the binary reader yields it: a 3-tuple of floats. *)
Definition vertex : Type := (float * float * float)%type.

(** What [load_stl] appends to [self._triangles]: the binary branch appends
    the tuple [(p1, p2, p3)] that [_read_triangle] returns, the text branch
    appends the float that [_read_ascii_triangle] returns. *)
Inductive item : Type :=
| Facet (p1 p2 p3 : vertex)
| Scalar (v : float).

Record self : Type := mkself {
  _f : option file;
  _volume : option float;
  _triangles : list item;
  triangles_count : Z;
  is_binary_file : option bool
}.

Definition __init__ : self := mkself None None [] (-1) None.

Definition with_f (f : option file) (s : self) : self :=
  mkself f (_volume s) (_triangles s) (triangles_count s) (is_binary_file s).
Definition with_volume (v : option float) (s : self) : self :=
  mkself (_f s) v (_triangles s) (triangles_count s) (is_binary_file s).
Definition with_triangles (ts : list item) (s : self) : self :=
  mkself (_f s) (_volume s) ts (triangles_count s) (is_binary_file s).
Definition with_count (n : Z) (s : self) : self :=
  mkself (_f s) (_volume s) (_triangles s) n (is_binary_file s).
Definition with_is_binary (b : option bool) (s : self) : self :=
  mkself (_f s) (_volume s) (_triangles s) (triangles_count s) b.

(** *** Methods as state transformers that may raise *)

Definition M (A : Type) : Type := self -> outcome A * self.

Definition ret {A} (a : A) : M A := fun s => (Return a, s).

Definition bind {A B} (c : M A) (k : A -> M B) : M B :=
  fun s =>
    match c s with
    | (Return a, s') => k a s'
    | (Raise e, s') => (Raise e, s')
    end.

Definition lift {A} (o : outcome A) : M A := fun s => (o, s).
Definition gets {A} (field : self -> A) : M A := fun s => (Return (field s), s).
Definition modify (f : self -> self) : M unit := fun s => (Return tt, f s).

(** [try: body except Exception as e: handler] *)
Definition try_except (body : M unit) (handler : exn -> M unit) : M unit :=
  fun s =>
    match body s with
    | (Return tt, s') => (Return tt, s')
    | (Raise e, s') => handler e s'
    end.

(** What a call returns or raises, and the object it leaves. *)
Definition result_of {A} (c : M A) (s : self) : outcome A := fst (c s).
Definition state_after {A} (c : M A) (s : self) : self := snd (c s).

Notation "x <- c ;; k" := (bind c (fun x => k))
  (at level 61, c at next level, right associativity).
Notation "c ;; k" := (bind c (fun _ => k))
  (at level 61, right associativity).
Notation "'let!' x ':=' o 'in' k" := (obind o (fun x => k))
  (at level 10, x name, o at level 100, k at level 200).
Notation "'let!' ' p ':=' o 'in' k" := (obind o (fun p => k))
  (at level 10, p strict pattern, o at level 100, k at level 200).

(** *** Subscripting a point: [p[i]] on a 3-tuple or on a list *)

Class Subscript (P : Type) : Type := subscript : P -> nat -> outcome float.

#[export] Instance tuple_subscript : Subscript vertex :=
  fun p i =>
    match i with
    | 0%nat => Return (fst (fst p))
    | 1%nat => Return (snd (fst p))
    | 2%nat => Return (snd p)
    | _ => Raise IndexError
    end.

#[export] Instance list_subscript : Subscript (list float) :=
  fun p i => getitem p i.

(** [a[i] * b[j] * c[k]] *)
Definition product {P} `{Subscript P} (a : P) (i : nat) (b : P) (j : nat)
  (c : P) (k : nat) : outcome float :=
  let! x := subscript a i in
  let! y := subscript b j in
  let! z := subscript c k in
  Return (x * y * z).

Definition _signed_volume_of_triangle {P} `{Subscript P} (p1 p2 p3 : P)
  : outcome float :=
  let! v321 := product p3 0 p2 1 p1 2 in
  let! v231 := product p2 0 p3 1 p1 2 in
  let! v312 := product p3 0 p1 1 p2 2 in
  let! v132 := product p1 0 p3 1 p2 2 in
  let! v213 := product p2 0 p1 1 p3 2 in
  let! v123 := product p1 0 p2 1 p3 2 in
  Return ((1.0 / 6.0) * (- v321 + v231 + v312 - v132 - v213 + v123)).

(** The header is decoded with [errors='replace'], which cannot fail; an
    ASCII byte decodes to itself and any other byte to a character that is
    not ASCII, so the decoded text starts with "solid" exactly when the
    bytes do. *)
Definition _is_binary (fs : filesystem) (path : string) : outcome bool :=
  let! f := open_rb fs path in
  let header := string_of_list_byte (fst (read f 80)) in
  Return (negb (startswith header "solid")).

Definition _read_ascii_triangle (lines : list string) (index : nat)
  : outcome float :=
  let! l1 := getitem lines (index + 1) in
  let! p1 := map_float (findall_numbers l1) in
  let! l2 := getitem lines (index + 2) in
  let! p2 := map_float (findall_numbers l2) in
  let! l3 := getitem lines (index + 3) in
  let! p3 := map_float (findall_numbers l3) in
  _signed_volume_of_triangle p1 p2 p3.

(** [self._f.read(l)] *)
Definition f_read (l : nat) : M (list byte) :=
  fun s =>
    match _f s with
    | Some f => let (bs, f') := read f l in (Return bs, with_f (Some f') s)
    | None => (Raise AttributeError, s)
    end.

Definition _unpack (sig : fmt) (l : nat) : M (unpacked sig) :=
  s <- f_read l ;;
  lift (unpack sig s).

Definition _read_triangle : M (vertex * vertex * vertex) :=
  n <- _unpack le_3f 12 ;;
  p1 <- _unpack le_3f 12 ;;
  p2 <- _unpack le_3f 12 ;;
  p3 <- _unpack le_3f 12 ;;
  _unpack le_h 2 ;;
  ret (p1, p2, p3).

Definition _read_length : M Z :=
  s <- f_read 4 ;;
  lift (unpack native_i s).

Definition _read_header : M unit :=
  fun s =>
    match _f s with
    | Some f => (Return tt, with_f (Some (seek f (tell f + 80))) s)
    | None => (Raise AttributeError, s)
    end.

(** [self._triangles.append(x)] *)
Definition append (x : item) : M unit :=
  modify (fun s => with_triangles (_triangles s ++ [x]) s).

(** [for _ in range(n): body] *)
Fixpoint for_range (n : nat) (body : M unit) : M unit :=
  match n with
  | O => ret tt
  | S n' => body ;; for_range n' body
  end.

(** [self._triangles.append(self._read_triangle())] *)
Definition read_and_append : M unit :=
  t <- _read_triangle ;;
  let '(p1, p2, p3) := t in append (Facet p1 p2 p3).

(** The [while i < len(lines)] loop of the text branch.  Every turn
    increases [i], so [len(lines)] turns are enough: [fuel] bounds the turns
    still allowed and is never the reason the loop stops (see
    [while_facets_fuel]). *)
Fixpoint while_facets (fuel : nat) (lines : list string) (i : nat) : M unit :=
  match fuel with
  | O => ret tt
  | S fuel' =>
      if (i <? List.length lines)%nat then
        line <- lift (getitem lines i) ;;
        if startswith (strip line) "facet" then
          v <- lift (_read_ascii_triangle lines i) ;;
          append (Scalar v) ;;
          while_facets fuel' lines (i + 7)
        else
          while_facets fuel' lines (i + 1)
      else ret tt
  end.

(** The body of the [try] statement of [load_stl]. *)
Definition load_body (fs : filesystem) (path : string) : M unit :=
  binary <- gets is_binary_file ;;
  if match binary with Some b => b | None => false end then
    f <- lift (open_rb fs path) ;;
    modify (with_f (Some f)) ;;
    _read_header ;;
    n <- _read_length ;;
    modify (with_count n) ;;
    count <- gets triangles_count ;;
    for_range (Z.to_nat count) read_and_append
  else
    lines <- lift (readlines fs path) ;;
    while_facets (List.length lines) lines 0 ;;
    ts <- gets _triangles ;;
    modify (with_count (Z.of_nat (List.length ts))).

Definition load_stl (fs : filesystem) (path : string) : M unit :=
  b <- lift (_is_binary fs path) ;;
  modify (with_is_binary (Some b)) ;;
  modify (with_triangles []) ;;
  try_except (load_body fs path)
             (fun e => modify (with_triangles [])).

(** The object as the [try] statement of [load_stl] finds it. *)
Definition entering (binary : bool) (s : self) : self :=
  with_triangles [] (with_is_binary (Some binary) s).

(** The [try] body runs to its end: the [except] branch is not entered. *)
Definition load_succeeds (fs : filesystem) (path : string) (s : self) : Prop :=
  exists b,
    _is_binary fs path = Return b /\
    result_of (load_body fs path) (entering b s) = Return tt.

(** [for p1, p2, p3 in self._triangles]: unpacking one element. *)
Definition unpack3 (x : item) : outcome (vertex * vertex * vertex) :=
  match x with
  | Facet p1 p2 p3 => Return (p1, p2, p3)
  | Scalar _ => Raise TypeError
  end.

(** An element the text branch appended. *)
Definition is_scalar (x : item) : Prop :=
  match x with
  | Scalar _ => True
  | Facet _ _ _ => False
  end.

(** The generator handed to [sum] in [calculate_volume]. *)
Fixpoint signed_volumes (ts : list item) : outcome (list float) :=
  match ts with
  | [] => Return []
  | x :: ts' =>
      let! '(p1, p2, p3) := unpack3 x in
      let! v := _signed_volume_of_triangle p1 p2 p3 in
      let! vs := signed_volumes ts' in
      Return (v :: vs)
  end.

Definition calculate_volume : M (option float) :=
  ts <- gets _triangles ;;
  match ts with
  | [] => ret None
  | _ =>
      cached <- gets _volume ;;
      match cached with
      | None =>
          vs <- lift (signed_volumes ts) ;;
          modify (with_volume (Some (sum vs / 1000)))
      | Some _ => ret tt
      end ;;
      gets _volume
  end.

(** [None * density] raises [TypeError]; the result is the int [-1] or the
    float [mass]. *)
Definition calculate_mass (density : float) : M object :=
  volume <- calculate_volume ;;
  mass <- lift match volume with
               | Some v => Return (v * density)
               | None => Raise TypeError
               end ;;
  if mass <=? 0 then ret (Int (-1)) else ret (Float mass).

(** [p[0]], [p[1]] and [p[2]] on a 3-tuple. *)
Definition x0 (p : vertex) : float := fst (fst p).
Definition x1 (p : vertex) : float := snd (fst p).
Definition x2 (p : vertex) : float := snd p.

(** The [for] loop of [calculate_area]; [area] is the running total. *)
Fixpoint area_loop (ts : list item) (area : float) : outcome float :=
  match ts with
  | [] => Return area
  | x :: ts' =>
      let! '(p1, p2, p3) := unpack3 x in
      let '(ax, ay, az) := (x0 p2 - x0 p1, x1 p2 - x1 p1, x2 p2 - x2 p1) in
      let '(bx, b_y, bz) := (x0 p3 - x0 p1, x1 p3 - x1 p1, x2 p3 - x2 p1) in
      let '(cx, cy, cz) :=
        (ay * bz - az * b_y, az * bx - ax * bz, ax * b_y - ay * bx) in
      area_loop ts' (area + 0.5 * pow_half (cx * cx + cy * cy + cz * cz))
  end.

Definition calculate_area : M (option float) :=
  ts <- gets _triangles ;;
  match ts with
  | [] => ret None
  | _ =>
      area <- lift (area_loop ts 0) ;;
      let area_cm2 := area / 100 in
      ret (Some area_cm2)
  end.

Definition calculate_triangles : M (option Z) :=
  ts <- gets _triangles ;;
  match ts with
  | [] => ret None
  | _ => n <- gets triangles_count ;; ret (Some n)
  end.

(** The running minima and maxima of [calculate_dimensions]. *)
Record box : Type := mkbox {
  min_x : float; min_y : float; min_z : float;
  max_x : float; max_y : float; max_z : float
}.

Definition grow (b : box) (point : vertex) : box :=
  mkbox (min (min_x b) (x0 point))
        (min (min_y b) (x1 point))
        (min (min_z b) (x2 point))
        (max (max_x b) (x0 point))
        (max (max_y b) (x1 point))
        (max (max_z b) (x2 point)).

Fixpoint box_loop (ts : list item) (b : box) : outcome box :=
  match ts with
  | [] => Return b
  | x :: ts' =>
      let! '(p1, p2, p3) := unpack3 x in
      box_loop ts' (fold_left grow [p1; p2; p3] b)
  end.

Definition calculate_dimensions : M (option (float * float * float)) :=
  ts <- gets _triangles ;;
  match ts with
  | [] => ret None
  | _ =>
      b <- lift (box_loop ts (mkbox infinity infinity infinity
                                    neg_infinity neg_infinity neg_infinity)) ;;
      let length := max_x b - min_x b in
      let width := max_y b - min_y b in
      let height := max_z b - min_z b in
      ret (Some (length, width, height))
  end.

Definition cm3_to_inch3 (v : float) : float := v * 0.0610237441.

(** Whether a call returned the float [x]. *)
Definition returned (o : outcome (option float)) (x : float) : bool :=
  match o with
  | Return (Some v) => PrimFloat.eqb v x
  | _ => false
  end.

End STLUtils.

(** ** The measurements in the words of the specification *)

Module Spec.
#[local] Open Scope float_scope.

Record Vertex : Type := mkVertex { x : float; y : float; z : float }.

Record Triangle : Type := mkTriangle { p1 : Vertex; p2 : Vertex; p3 : Vertex }.

(** The signed volume of the tetrahedron a triangle forms with the origin:
    each [vXYZ] is the product of the x of vertex X, the y of vertex Y and
    the z of vertex Z. *)
Definition vol (t : Triangle) : float :=
  let v321 := x (p3 t) * y (p2 t) * z (p1 t) in
  let v231 := x (p2 t) * y (p3 t) * z (p1 t) in
  let v312 := x (p3 t) * y (p1 t) * z (p2 t) in
  let v132 := x (p1 t) * y (p3 t) * z (p2 t) in
  let v213 := x (p2 t) * y (p1 t) * z (p3 t) in
  let v123 := x (p1 t) * y (p2 t) * z (p3 t) in
  (1 / 6) * (- v321 + v231 + v312 - v132 - v213 + v123).

(** Cubic millimetres to cubic centimetres. *)
Definition volume (ts : list Triangle) : float :=
  Py.sum (map vol ts) / 1000.

Definition edge (a b : Vertex) : Vertex :=
  mkVertex (x b - x a) (y b - y a) (z b - z a).

Definition cross (a b : Vertex) : Vertex :=
  mkVertex (y a * z b - z a * y b)
           (z a * x b - x a * z b)
           (x a * y b - y a * x b).

Definition magnitude (a : Vertex) : float :=
  PrimFloat.sqrt (x a * x a + y a * y a + z a * z a).

(** Half the magnitude of the cross product of the two edges from [p1]. *)
Definition triangle_area (t : Triangle) : float :=
  0.5 * magnitude (cross (edge (p1 t) (p2 t)) (edge (p1 t) (p3 t))).

(** Square millimetres to square centimetres. *)
Definition area (ts : list Triangle) : float :=
  Py.sum (map triangle_area ts) / 100.

(** How the engine holds a triangle. *)
Definition tuple (v : Vertex) : STLUtils.vertex := (x v, y v, z v).

Definition stored (t : Triangle) : STLUtils.item :=
  STLUtils.Facet (tuple (p1 t)) (tuple (p2 t)) (tuple (p3 t)).

End Spec.

(** ** Sample files *)

Module Samples.
Import Py STLUtils.

Definition bytes (l : list N) : list byte :=
  map (fun n => match Byte.of_N n with Some b => b | None => x00 end) l.

Definition zeros (n : nat) : list byte := repeat x00 n.

(** binary32 patterns, least significant byte first. *)
Definition f32_0 : list byte := bytes [0; 0; 0; 0]%N.
Definition f32_1 : list byte := bytes [0; 0; 128; 63]%N.
Definition f32_2 : list byte := bytes [0; 0; 0; 64]%N.

Definition point (a b c : list byte) : list byte := a ++ b ++ c.

(** A 50-byte record: normal, three vertices, attribute. *)
Definition record (v1 v2 v3 : list byte) : list byte :=
  zeros 12 ++ v1 ++ v2 ++ v3 ++ zeros 2.

Definition count1 : list byte := bytes [1; 0; 0; 0]%N.

(** One facet (1,0,0) (0,1,0) (0,0,1). *)
Definition corner_stl : list byte :=
  zeros 80 ++ count1
  ++ record (point f32_1 f32_0 f32_0) (point f32_0 f32_1 f32_0)
            (point f32_0 f32_0 f32_1).

(** One facet (2,0,0) (0,1,0) (0,0,1). *)
Definition wide_stl : list byte :=
  zeros 80 ++ count1
  ++ record (point f32_2 f32_0 f32_0) (point f32_0 f32_1 f32_0)
            (point f32_0 f32_0 f32_1).

(** The header announces one record; the file ends 20 bytes into it. *)
Definition truncated_stl : list byte := firstn 104 corner_stl.

Definition nl : string := String "010" EmptyString.

(** The facet of [corner_stl], as text. *)
Definition corner_text : string :=
  ("solid corner" ++ nl ++
   "facet normal 0.0 0.0 0.0" ++ nl ++
   "outer loop" ++ nl ++
   "vertex 1.0 0.0 0.0" ++ nl ++
   "vertex 0.0 1.0 0.0" ++ nl ++
   "vertex 0.0 0.0 1.0" ++ nl ++
   "endloop" ++ nl ++
   "endfacet" ++ nl ++
   "endsolid corner" ++ nl)%string.

(** The same facet with the vertex lines right after the [facet] line. *)
Definition bare_text : string :=
  ("solid corner" ++ nl ++
   "facet normal 0.0 0.0 0.0" ++ nl ++
   "vertex 1.0 0.0 0.0" ++ nl ++
   "vertex 0.0 1.0 0.0" ++ nl ++
   "vertex 0.0 0.0 1.0" ++ nl ++
   "endfacet" ++ nl ++
   "endsolid corner" ++ nl)%string.

Definition disk : filesystem :=
  fun path =>
    if String.eqb path "corner.stl" then Some corner_stl
    else if String.eqb path "wide.stl" then Some wide_stl
    else if String.eqb path "truncated.stl" then Some truncated_stl
    else if String.eqb path "corner_ascii.stl"
         then Some (list_byte_of_string corner_text)
    else if String.eqb path "bare_ascii.stl"
         then Some (list_byte_of_string bare_text)
    else None.


Definition corner_loaded : self :=
  state_after (load_stl disk "corner.stl") __init__.

(** corner.stl loaded and measured, then wide.stl loaded. *)
Definition reloaded : self :=
  state_after (load_stl disk "wide.stl")
    (state_after calculate_volume corner_loaded).

Definition corner : Spec.Triangle :=
  Spec.mkTriangle (Spec.mkVertex 1 0 0) (Spec.mkVertex 0 1 0)
                  (Spec.mkVertex 0 0 1).

Definition wide : Spec.Triangle :=
  Spec.mkTriangle (Spec.mkVertex 2 0 0) (Spec.mkVertex 0 1 0)
                  (Spec.mkVertex 0 0 1).

End Samples.

(** ** The binary layout and the bounding box, for the further properties *)

Module Layout.
Import Py STLUtils.

(** The vertex held by the 12 bytes at offset [off] of a 50-byte record. *)
Definition vertex_at (r : list byte) (off : nat) : vertex :=
  let b := firstn 12 (skipn off r) in
  (f32 (firstn 4 b), f32 (firstn 4 (skipn 4 b)), f32 (skipn 8 b)).

(** The facet of a record: the normal (bytes 0..12) and the attribute (bytes
    48..50) are dropped. *)
Definition facet_of (r : list byte) : item :=
  Facet (vertex_at r 12) (vertex_at r 24) (vertex_at r 36).

(** A header that [_is_binary] takes for a binary file's. *)
Definition binary_header (header : list byte) : Prop :=
  List.length header = 80%nat /\
  startswith (string_of_list_byte header) "solid" = false.

(** Every vertex of the triangles, in the order [calculate_dimensions] visits
    them. *)
Definition vertices (ts : list Spec.Triangle) : list Spec.Vertex :=
  flat_map (fun t => [Spec.p1 t; Spec.p2 t; Spec.p3 t]) ts.

Definition lowest (xs : list float) : float := fold_left Py.min xs infinity.
Definition highest (xs : list float) : float :=
  fold_left Py.max xs neg_infinity.
Definition extent (xs : list float) : float :=
  PrimFloat.sub (highest xs) (lowest xs).

(** The extent of the mesh along each axis. *)
Definition dimensions (ts : list Spec.Triangle) : float * float * float :=
  (extent (map Spec.x (vertices ts)),
   extent (map Spec.y (vertices ts)),
   extent (map Spec.z (vertices ts))).

(** A run of decimal digits. *)
Definition digits (ds : list ascii) : Prop :=
  Forall (fun c => is_digit c = true) ds.

(** What [span_digits] leaves starts with no digit. *)
Definition no_digit_ahead (rest : list ascii) : Prop :=
  match rest with
  | [] => True
  | c :: _ => is_digit c = false
  end.

(** What may follow a number for the pattern to stop there: the end of the
    line, or a character that is neither a digit nor the dot. *)
Definition ends_number (rest : list ascii) : Prop :=
  match rest with
  | [] => True
  | c :: _ => is_digit c = false /\ (code c =? 46)%nat = false
  end.

End Layout.

(** ** Properties *)

Import Py STLUtils.
#[local] Open Scope float_scope.

(** Two different float constants are different: compare both with the
    first. *)
Ltac float_discriminate H :=
  match type of H with
  | ?a = _ =>
      apply (f_equal (fun v => PrimFloat.eqb v a)) in H;
      vm_compute in H; discriminate H
  end.

(** *** The signed volume and the area on stored triangles *)

Lemma signed_volume_stored (t : Spec.Triangle) :
  _signed_volume_of_triangle (Spec.tuple (Spec.p1 t)) (Spec.tuple (Spec.p2 t))
                             (Spec.tuple (Spec.p3 t))
  = Return (Spec.vol t).
Proof. reflexivity. Qed.

Lemma signed_volumes_stored (ts : list Spec.Triangle) :
  signed_volumes (map Spec.stored ts) = Return (map Spec.vol ts).
Proof.
  induction ts as [| t ts IH].
  - reflexivity.
  - change (signed_volumes (map Spec.stored (t :: ts)))
      with (let! v := _signed_volume_of_triangle
                        (Spec.tuple (Spec.p1 t)) (Spec.tuple (Spec.p2 t))
                        (Spec.tuple (Spec.p3 t)) in
            let! vs := signed_volumes (map Spec.stored ts) in
            Return (v :: vs)).
    rewrite signed_volume_stored, IH. reflexivity.
Qed.

(** A list of stored triangles is empty only if there is no triangle. *)
Lemma stored_cons (ts : list Spec.Triangle) :
  ts <> [] -> exists x xs, map Spec.stored ts = x :: xs.
Proof.
  destruct ts as [| t ts]; intro H.
  - contradiction.
  - exists (Spec.stored t), (map Spec.stored ts). reflexivity.
Qed.

(** *** calculate_volume, case by case *)

Lemma calculate_volume_empty (s : self) :
  _triangles s = [] -> calculate_volume s = (Return None, s).
Proof.
  intro H. unfold calculate_volume, bind, gets. rewrite H. reflexivity.
Qed.

Lemma calculate_volume_cached (s : self) (c : float) :
  _triangles s <> [] -> _volume s = Some c ->
  calculate_volume s = (Return (Some c), s).
Proof.
  intros Hne Hc. unfold calculate_volume, bind, gets, ret.
  destruct (_triangles s) as [| x xs]; [contradiction |].
  cbv beta. rewrite Hc. cbv beta iota. rewrite Hc. reflexivity.
Qed.

Lemma calculate_volume_computed (s : self) (ts : list Spec.Triangle) :
  ts <> [] -> _triangles s = map Spec.stored ts -> _volume s = None ->
  calculate_volume s
  = (Return (Some (Spec.volume ts)), with_volume (Some (Spec.volume ts)) s).
Proof.
  intros Hne Hts Hnone.
  destruct (stored_cons ts Hne) as (x & xs & Hx).
  unfold calculate_volume, bind, gets, lift, modify.
  rewrite Hts, Hx, <- Hx, Hnone, signed_volumes_stored.
  reflexivity.
Qed.

(** A failed unpacking leaves the object as it was. *)
Lemma calculate_volume_raises (s : self) (e : exn) :
  result_of calculate_volume s = Raise e -> state_after calculate_volume s = s.
Proof.
  unfold result_of, state_after, calculate_volume, bind, gets, lift, modify, ret.
  destruct (_triangles s) as [| x xs]; [discriminate |].
  destruct (_volume s) as [c |]; [discriminate |].
  destruct (signed_volumes (x :: xs)); [discriminate | reflexivity].
Qed.

(** With nothing cached the call is the generator's outcome. *)
Lemma calculate_volume_uncached (s : self) :
  _triangles s <> [] -> _volume s = None ->
  calculate_volume s
  = match signed_volumes (_triangles s) with
    | Return vs =>
        (Return (Some (sum vs / 1000)), with_volume (Some (sum vs / 1000)) s)
    | Raise e => (Raise e, s)
    end.
Proof.
  intros Hne Hv. unfold calculate_volume, bind, gets, lift, modify, ret.
  destruct (_triangles s) as [| x xs]; [contradiction |].
  cbv beta. rewrite Hv. cbv beta iota.
  destruct (signed_volumes (x :: xs)); reflexivity.
Qed.

(** Whatever the list holds, a second call in a row ends as the first
    did. *)
Lemma calculate_volume_same_outcome (s : self) :
  result_of calculate_volume (state_after calculate_volume s)
  = result_of calculate_volume s.
Proof.
  unfold result_of, state_after.
  destruct (_triangles s) as [| x xs] eqn:Ht.
  - rewrite (calculate_volume_empty s Ht). simpl.
    rewrite (calculate_volume_empty s Ht). reflexivity.
  - assert (Hne : _triangles s <> []) by (rewrite Ht; discriminate).
    destruct (_volume s) as [c |] eqn:Hv.
    + rewrite (calculate_volume_cached s c Hne Hv). simpl.
      rewrite (calculate_volume_cached s c Hne Hv). reflexivity.
    + rewrite (calculate_volume_uncached s Hne Hv).
      destruct (signed_volumes (_triangles s)) as [vs | e] eqn:Hvs.
      * simpl. rewrite (calculate_volume_cached _ (sum vs / 1000)).
        -- reflexivity.
        -- exact Hne.
        -- reflexivity.
      * simpl. rewrite (calculate_volume_uncached s Hne Hv), Hvs.
        reflexivity.
Qed.

(** *** Fields a method leaves alone *)

Section Preserves.
Context {B : Type} (field : self -> B).

Definition preserves {A} (c : M A) : Prop :=
  forall s, field (state_after c s) = field s.

Lemma preserves_ret {A} (a : A) : preserves (ret a).
Proof. intro s. reflexivity. Qed.

Lemma preserves_lift {A} (o : outcome A) : preserves (lift o).
Proof. intro s. reflexivity. Qed.

Lemma preserves_gets {A} (g : self -> A) : preserves (gets g).
Proof. intro s. reflexivity. Qed.

Lemma preserves_modify (f : self -> self) :
  (forall s, field (f s) = field s) -> preserves (modify f).
Proof. intros H s. apply H. Qed.

Lemma preserves_bind {A C} (c : M A) (k : A -> M C) :
  preserves c -> (forall a, preserves (k a)) -> preserves (bind c k).
Proof.
  intros Hc Hk s. unfold state_after, bind.
  specialize (Hc s). unfold state_after in Hc.
  destruct (c s) as [[a | e] s1]; simpl in *.
  - rewrite <- Hc. apply Hk.
  - exact Hc.
Qed.

Lemma preserves_try (body : M unit) (handler : exn -> M unit) :
  preserves body -> (forall e, preserves (handler e)) ->
  preserves (try_except body handler).
Proof.
  intros Hb Hh s. unfold state_after, try_except.
  specialize (Hb s). unfold state_after in Hb.
  destruct (body s) as [[[] | e] s1]; simpl in *.
  - exact Hb.
  - rewrite <- Hb. apply Hh.
Qed.

Lemma preserves_for_range (n : nat) (body : M unit) :
  preserves body -> preserves (for_range n body).
Proof.
  intro Hb. induction n as [| n IH]; simpl.
  - apply preserves_ret.
  - apply preserves_bind; [exact Hb | intros _; exact IH].
Qed.

(** The readers only move the file object. *)
Hypothesis not_the_file : forall f s, field (with_f f s) = field s.

Lemma preserves_f_read (l : nat) : preserves (f_read l).
Proof.
  intro s. unfold state_after, f_read.
  destruct (_f s) as [f |]; [| reflexivity].
  destruct (read f l) as [bs f']. apply not_the_file.
Qed.

Lemma preserves_unpack (sig : fmt) (l : nat) : preserves (_unpack sig l).
Proof.
  apply preserves_bind; [apply preserves_f_read | intro; apply preserves_lift].
Qed.

Lemma preserves_read_triangle : preserves _read_triangle.
Proof.
  unfold _read_triangle.
  repeat (apply preserves_bind; [apply preserves_unpack | intro]).
  apply preserves_ret.
Qed.

Lemma preserves_read_length : preserves _read_length.
Proof.
  apply preserves_bind; [apply preserves_f_read | intro; apply preserves_lift].
Qed.

Lemma preserves_read_header : preserves _read_header.
Proof.
  intro s. unfold state_after, _read_header.
  destruct (_f s) as [f |]; [apply not_the_file | reflexivity].
Qed.

End Preserves.

(** *** The text loop *)

Lemma preserves_append {B} (field : self -> B) (x : item) :
  (forall ts s, field (with_triangles ts s) = field s) ->
  preserves field (append x).
Proof. intros H s. apply H. Qed.

Lemma preserves_read_and_append {B} (field : self -> B) :
  (forall f s, field (with_f f s) = field s) ->
  (forall ts s, field (with_triangles ts s) = field s) ->
  preserves field read_and_append.
Proof.
  intros Hf Ht. apply preserves_bind.
  - apply preserves_read_triangle, Hf.
  - intros [[p1 p2] p3]. apply preserves_append, Ht.
Qed.

Lemma preserves_while_facets {B} (field : self -> B)
  (fuel : nat) (lines : list string) (i : nat) :
  (forall ts s, field (with_triangles ts s) = field s) ->
  preserves field (while_facets fuel lines i).
Proof.
  intro H. revert i. induction fuel as [| fuel IH]; intro i; simpl.
  - apply preserves_ret.
  - destruct (i <? List.length lines)%nat; [| apply preserves_ret].
    apply preserves_bind; [apply preserves_lift | intro line].
    destruct (startswith (strip line) "facet"); [| apply IH].
    apply preserves_bind; [apply preserves_lift | intro v].
    apply preserves_bind; [apply preserves_append, H | intros _; apply IH].
Qed.

Ltac frame :=
  repeat first
    [ apply preserves_ret | apply preserves_lift | apply preserves_gets
    | apply preserves_read_triangle; reflexivity
    | apply preserves_read_length; reflexivity
    | apply preserves_read_header; reflexivity
    | apply preserves_modify; reflexivity
    | apply preserves_read_and_append; reflexivity
    | apply preserves_while_facets; reflexivity
    | apply preserves_for_range
    | apply preserves_try; [| intro]
    | apply preserves_bind; [| intro] ].

(** The fuel of the text loop never runs out: more of it changes
    nothing. *)
Lemma while_facets_fuel (fuel extra : nat) (lines : list string) (i : nat)
  (s : self) :
  (List.length lines <= i + fuel)%nat ->
  while_facets (fuel + extra) lines i s = while_facets fuel lines i s.
Proof.
  revert i s. induction fuel as [| fuel IH]; intros i s Hlen.
  - assert (Hi : (i <? List.length lines)%nat = false)
      by (apply Nat.ltb_ge; lia).
    destruct extra as [| extra]; simpl; [reflexivity |].
    rewrite Hi. reflexivity.
  - simpl. destruct (i <? List.length lines)%nat; [| reflexivity].
    unfold bind, lift.
    destruct (getitem lines i) as [line | e]; [| reflexivity].
    destruct (startswith (strip line) "facet").
    + destruct (_read_ascii_triangle lines i) as [v | e]; [| reflexivity].
      unfold append, modify. apply IH. lia.
    + apply IH. lia.
Qed.

(** *** load_stl *)

(** No path through [load_stl] assigns [self._volume]. *)
Lemma load_stl_keeps_volume (fs : filesystem) (path : string) :
  preserves _volume (load_stl fs path).
Proof.
  unfold load_stl, load_body.
  frame.
  match goal with
  | |- preserves _ (if ?b then _ else _) => destruct b
  end; frame.
Qed.

Lemma bind_returns {A C} (c : M A) (k : A -> M C) (s s' : self) (r : C) :
  bind c k s = (Return r, s') ->
  exists a s1, c s = (Return a, s1) /\ k a s1 = (Return r, s').
Proof.
  unfold bind. destruct (c s) as [[a | e] s1]; intro H.
  - exists a, s1. split; [reflexivity | exact H].
  - discriminate H.
Qed.

Lemma load_stl_success (fs : filesystem) (path : string) (s : self) (b : bool) :
  _is_binary fs path = Return b ->
  result_of (load_body fs path) (entering b s) = Return tt ->
  state_after (load_stl fs path) s
  = state_after (load_body fs path) (entering b s).
Proof.
  intros Hb Hbody.
  unfold state_after, load_stl, bind, lift, modify, try_except.
  rewrite Hb. unfold result_of in Hbody.
  destruct (load_body fs path _) as [[[] | e] s1]; simpl in *.
  - reflexivity.
  - discriminate Hbody.
Qed.

Lemma read_and_append_length (s s' : self) :
  read_and_append s = (Return tt, s') ->
  List.length (_triangles s') = S (List.length (_triangles s)).
Proof.
  intro H. apply bind_returns in H. destruct H as ([[p1 p2] p3] & s1 & H1 & H).
  pose proof (preserves_read_triangle _triangles
                (fun _ _ => eq_refl) s) as Hts.
  unfold state_after in Hts. rewrite H1 in Hts. simpl in Hts.
  unfold append, modify in H. injection H as <-.
  simpl. rewrite Hts, length_app. simpl. lia.
Qed.

Lemma for_range_length (k : nat) (s s' : self) :
  for_range k read_and_append s = (Return tt, s') ->
  List.length (_triangles s') = (List.length (_triangles s) + k)%nat.
Proof.
  revert s. induction k as [| k IH]; intros s H; simpl in H.
  - injection H as <-. lia.
  - apply bind_returns in H. destruct H as ([] & s1 & H1 & H).
    apply IH in H. apply read_and_append_length in H1. lia.
Qed.

(** A completed binary load holds vertex triples only. *)
Lemma read_and_append_stored (s s' : self) :
  read_and_append s = (Return tt, s') ->
  exists t, _triangles s' = _triangles s ++ [Spec.stored t].
Proof.
  intro H. apply bind_returns in H. destruct H as ([[q1 q2] q3] & s1 & H1 & H).
  pose proof (preserves_read_triangle _triangles
                (fun _ _ => eq_refl) s) as Hts.
  unfold state_after in Hts. rewrite H1 in Hts. simpl in Hts.
  unfold append, modify in H. injection H as <-.
  destruct q1 as [[a1 a2] a3], q2 as [[b1 b2] b3], q3 as [[c1 c2] c3].
  exists (Spec.mkTriangle (Spec.mkVertex a1 a2 a3) (Spec.mkVertex b1 b2 b3)
                          (Spec.mkVertex c1 c2 c3)).
  simpl. rewrite Hts. reflexivity.
Qed.

Lemma for_range_stored (k : nat) (s s' : self) :
  for_range k read_and_append s = (Return tt, s') ->
  exists ts, _triangles s' = _triangles s ++ map Spec.stored ts.
Proof.
  revert s. induction k as [| k IH]; intros s H; simpl in H.
  - injection H as <-. exists []. simpl. rewrite app_nil_r. reflexivity.
  - apply bind_returns in H. destruct H as ([] & s1 & H1 & H).
    apply IH in H. destruct H as (ts & H).
    apply read_and_append_stored in H1. destruct H1 as (t & H1).
    exists (t :: ts). rewrite H, H1, <- app_assoc. reflexivity.
Qed.

(** The binary branch, when it completes: as many facets as the count
    field says, none if it is negative. *)
Lemma binary_body_count (fs : filesystem) (path : string) (s s' : self) :
  is_binary_file s = Some true -> _triangles s = [] ->
  load_body fs path s = (Return tt, s') ->
  is_binary_file s' = Some true /\
  List.length (_triangles s') = Z.to_nat (triangles_count s') /\
  exists ts, _triangles s' = map Spec.stored ts.
Proof.
  intros Hbin Hempty H. unfold load_body in H.
  apply bind_returns in H. destruct H as (binary & s0 & H0 & H).
  unfold gets in H0. injection H0 as <- <-. rewrite Hbin in H.
  apply bind_returns in H. destruct H as (f & s1 & H1 & H).
  unfold lift in H1. injection H1 as H1 <-.
  apply bind_returns in H. destruct H as ([] & s2 & H2 & H).
  unfold modify in H2. injection H2 as <-.
  apply bind_returns in H. destruct H as ([] & s3 & H3 & H).
  apply bind_returns in H. destruct H as (n & s4 & H4 & H).
  apply bind_returns in H. destruct H as ([] & s5 & H5 & H).
  unfold modify in H5. injection H5 as <-.
  apply bind_returns in H. destruct H as (count & s6 & H6 & H).
  unfold gets in H6. injection H6 as <- <-.
  (* what the readers left alone *)
  assert (Hkeep : forall {B} (field : self -> B),
             (forall f s, field (with_f f s) = field s) ->
             field s4 = field s).
  { intros B field Hf.
    pose proof (preserves_read_length field Hf s3) as E4.
    pose proof (preserves_read_header field Hf (with_f (Some f) s)) as E3.
    unfold state_after in E3, E4. rewrite H3 in E3. rewrite H4 in E4.
    simpl in E3, E4. rewrite E4, E3. apply Hf. }
  pose proof (for_range_length _ _ _ H) as Hlen.
  pose proof (preserves_for_range triangles_count
                (Z.to_nat n) read_and_append
                (preserves_read_and_append triangles_count
                   (fun _ _ => eq_refl) (fun _ _ => eq_refl))
                (with_count n s4)) as Hcount.
  pose proof (preserves_for_range is_binary_file
                (Z.to_nat n) read_and_append
                (preserves_read_and_append is_binary_file
                   (fun _ _ => eq_refl) (fun _ _ => eq_refl))
                (with_count n s4)) as Hflag.
  unfold state_after in Hcount, Hflag. rewrite H in Hcount, Hflag.
  simpl in Hcount, Hflag, Hlen.
  split; [| split].
  - rewrite Hflag, (Hkeep _ is_binary_file (fun _ _ => eq_refl)). exact Hbin.
  - rewrite Hlen, Hcount, (Hkeep _ _triangles (fun _ _ => eq_refl)), Hempty.
    reflexivity.
  - destruct (for_range_stored _ _ _ H) as (ts & Hts). exists ts.
    rewrite Hts. simpl.
    rewrite (Hkeep _ _triangles (fun _ _ => eq_refl)), Hempty. reflexivity.
Qed.

(** The text branch, when it completes: the count is assigned the length
    of the list. *)
Lemma text_body_count (fs : filesystem) (path : string) (s s' : self) :
  is_binary_file s = Some false ->
  load_body fs path s = (Return tt, s') ->
  is_binary_file s' = Some false /\
  triangles_count s' = Z.of_nat (List.length (_triangles s')).
Proof.
  intros Hbin H. unfold load_body in H.
  apply bind_returns in H. destruct H as (binary & s0 & H0 & H).
  unfold gets in H0. injection H0 as <- <-. rewrite Hbin in H.
  apply bind_returns in H. destruct H as (lines & s1 & H1 & H).
  unfold lift in H1. injection H1 as H1 <-.
  apply bind_returns in H. destruct H as ([] & s2 & H2 & H).
  apply bind_returns in H. destruct H as (ts & s3 & H3 & H).
  unfold gets in H3. injection H3 as <- <-.
  unfold modify in H. injection H as <-.
  pose proof (preserves_while_facets is_binary_file (List.length lines) lines 0
                (fun _ _ => eq_refl) s) as Hflag.
  unfold state_after in Hflag. rewrite H2 in Hflag. simpl in Hflag.
  split; [simpl; rewrite Hflag; exact Hbin | reflexivity].
Qed.

(** Every binary load that completes leaves a list of vertex triples, the
    kind of list the measurement theorems are about. *)
Lemma binary_load_stores_triangles (fs : filesystem) (path : string)
  (s : self) :
  load_succeeds fs path s ->
  is_binary_file (state_after (load_stl fs path) s) = Some true ->
  exists ts, _triangles (state_after (load_stl fs path) s)
             = map Spec.stored ts.
Proof.
  intros (b & Hb & Hbody).
  rewrite (load_stl_success fs path s b Hb Hbody).
  unfold result_of, state_after in *.
  destruct (load_body fs path (entering b s)) as [r s1] eqn:E.
  simpl in Hbody. subst r. simpl. intro Hflag.
  destruct b.
  - apply binary_body_count in E; [| reflexivity | reflexivity].
    exact (proj2 (proj2 E)).
  - apply text_body_count in E; [| reflexivity].
    rewrite (proj1 E) in Hflag. discriminate Hflag.
Qed.

(** A load whose [try] body raises leaves the triangle list empty. *)
Lemma failed_load_empties (fs : filesystem) (path : string) (s : self)
  (b : bool) (e : exn) :
  _is_binary fs path = Return b ->
  result_of (load_body fs path) (entering b s) = Raise e ->
  _triangles (state_after (load_stl fs path) s) = [].
Proof.
  intros Hb Hbody.
  unfold state_after, load_stl, bind, lift, modify, try_except.
  rewrite Hb. unfold result_of, entering in Hbody.
  destruct (load_body fs path _) as [[[] | e'] s1]; simpl in *.
  - discriminate Hbody.
  - reflexivity.
Qed.

(** *** What the text branch stores *)

Lemma while_facets_scalars (fuel : nat) (lines : list string) (i : nat)
  (s : self) :
  Forall is_scalar (_triangles s) ->
  Forall is_scalar (_triangles (state_after (while_facets fuel lines i) s)).
Proof.
  revert i s. induction fuel as [| fuel IH]; intros i s Hs; simpl.
  - exact Hs.
  - unfold state_after in *.
    destruct (i <? List.length lines)%nat; [| exact Hs].
    unfold bind, lift.
    destruct (getitem lines i) as [line | e]; [| exact Hs].
    destruct (startswith (strip line) "facet"); [| apply IH, Hs].
    destruct (_read_ascii_triangle lines i) as [v | e]; [| exact Hs].
    unfold append, modify. apply IH. simpl.
    apply Forall_app. split; [exact Hs | repeat constructor].
Qed.

(** Whatever the text file, after [load_stl] the list is empty or starts
    with a float. *)
Lemma text_load_scalars (fs : filesystem) (path : string) (s : self) :
  _is_binary fs path = Return false ->
  Forall is_scalar (_triangles (state_after (load_stl fs path) s)).
Proof.
  intro Hb.
  destruct (result_of (load_body fs path) (entering false s))
    as [[] | e] eqn:Hbody.
  - rewrite (load_stl_success fs path s false Hb Hbody).
    unfold state_after, load_body, bind, gets, lift, modify. simpl.
    destruct (readlines fs path) as [lines | e]; [| constructor].
    pose proof (while_facets_scalars (List.length lines) lines 0
                  (entering false s) (Forall_nil _)) as Hw.
    unfold state_after in Hw.
    destruct (while_facets (List.length lines) lines 0 (entering false s))
      as [[[] | e] s1]; exact Hw.
  - rewrite (failed_load_empties fs path s false e Hb Hbody). constructor.
Qed.

(** No text file is ever measured: after [load_stl] has taken the text
    branch, [calculate_area] returns None or raises, never an area. *)
Lemma text_load_has_no_area (fs : filesystem) (path : string) (s : self)
  (a : float) :
  _is_binary fs path = Return false ->
  result_of calculate_area (state_after (load_stl fs path) s)
  <> Return (Some a).
Proof.
  intro Hb. pose proof (text_load_scalars fs path s Hb) as Hs.
  unfold result_of, calculate_area, bind, gets, lift, ret.
  destruct (_triangles (state_after (load_stl fs path) s)) as [| x xs].
  - discriminate.
  - inversion Hs as [| ? ? Hx _]. destruct x as [p1 p2 p3 | v].
    + contradiction.
    + discriminate.
Qed.

(** Before any load [calculate_mass] raises, whatever the density. *)
Lemma calculate_mass_unloaded (s : self) (density : float) :
  _triangles s = [] -> calculate_mass density s = (Raise TypeError, s).
Proof.
  intro H. unfold calculate_mass, bind.
  rewrite (calculate_volume_empty s H). reflexivity.
Qed.

Import Samples.

(** ** The claims *)

(** C1, at a failing input: corner.stl is loaded and measured, then
    wide.stl is loaded.  The triangle list is then the one facet of
    wide.stl, and calculate_volume returns the volume cached for corner.stl,
    which is not the sum of the signed tetrahedron volumes of the list
    divided by 1000.  With no volume cached the sum is what the call
    returns ([calculate_volume_computed]). *)
Theorem volume_after_reload_is_not_the_sum :
  _triangles reloaded = map Spec.stored [wide]
  /\ result_of calculate_volume reloaded = Return (Some (Spec.volume [corner]))
  /\ result_of calculate_volume reloaded <> Return (Some (Spec.volume [wide])).
Proof.
  split; [| split].
  - vm_compute. reflexivity.
  - vm_compute. reflexivity.
  - intro H.
    assert (E : returned (result_of calculate_volume reloaded)
                         (Spec.volume [corner]) = true)
      by (vm_compute; reflexivity).
    rewrite H in E. vm_compute in E. discriminate E.
Qed.

(** C2, at a failing input: the facet (1,0,0) (0,1,0) (0,0,1) written as a
    binary file loads and is measured, but written as a text file in the
    usual seven-line layout the load fails with IndexError (the reader
    takes the "outer loop" line for the first vertex), the triangle list is
    empty and the three measurements return None; and a text file whose
    vertex lines follow the facet line at once loads a float, not a vertex
    triple, on which the three measurements raise TypeError. *)
Theorem text_load_does_not_measure :
  let binary := state_after (load_stl disk "corner.stl") __init__ in
  let text := state_after (load_stl disk "corner_ascii.stl") __init__ in
  let bare := state_after (load_stl disk "bare_ascii.stl") __init__ in
  (result_of calculate_volume binary = Return (Some (Spec.volume [corner]))
   /\ result_of calculate_area binary = Return (Some (Spec.area [corner]))
   /\ result_of calculate_dimensions binary = Return (Some (1, 1, 1)))
  /\ (result_of (load_body disk "corner_ascii.stl") (entering false __init__)
      = Raise IndexError
      /\ _triangles text = []
      /\ result_of calculate_volume text = Return None
      /\ result_of calculate_area text = Return None
      /\ result_of calculate_dimensions text = Return None)
  /\ (_triangles bare = [Scalar (Spec.vol corner)]
      /\ result_of calculate_volume bare = Raise TypeError
      /\ result_of calculate_area bare = Raise TypeError
      /\ result_of calculate_dimensions bare = Raise TypeError).
Proof. vm_compute. repeat split; reflexivity. Qed.

(** C3, at a failing input: a binary file whose count field says 1 and
    that ends 20 bytes into the record.  The load fails (the second 12-byte
    read is short), the triangle list is emptied, and the stored count is
    the 1 read from the file, not the -1 of a never-loaded engine.  The
    text branch assigns the count last, so its failed load of
    corner_ascii.stl leaves the -1 in place. *)
Theorem truncated_load_keeps_the_declared_count :
  let s := state_after (load_stl disk "truncated.stl") __init__ in
  let text := state_after (load_stl disk "corner_ascii.stl") __init__ in
  result_of (load_body disk "truncated.stl") (entering true __init__)
  = Raise StructError
  /\ _triangles s = []
  /\ triangles_count s = 1%Z
  /\ triangles_count s <> triangles_count __init__
  /\ triangles_count text = triangles_count __init__.
Proof. vm_compute. repeat split; try reflexivity. discriminate. Qed.

(** C4, at a failing input: corner.stl is loaded and measured, then
    wide.stl is loaded, successfully; calculate_volume then returns the
    volume of corner.stl, which is not the volume of the triangles now
    loaded.  No load ever touches the cached volume
    ([load_stl_keeps_volume]). *)
Theorem reload_returns_the_old_volume :
  load_succeeds disk "wide.stl" (state_after calculate_volume corner_loaded)
  /\ _triangles reloaded = map Spec.stored [wide]
  /\ result_of calculate_volume reloaded = Return (Some (Spec.volume [corner]))
  /\ Spec.volume [corner] <> Spec.volume [wide].
Proof.
  split; [| split; [| split]].
  - exists true. split; vm_compute; reflexivity.
  - vm_compute. reflexivity.
  - vm_compute. reflexivity.
  - vm_compute. intro H. float_discriminate H.
Qed.

(** C5, at a failing input: on a never-loaded engine calculate_volume,
    calculate_area, calculate_triangles and calculate_dimensions return
    None, but calculate_mass raises TypeError (it multiplies the None it
    got from calculate_volume by the density). *)
Theorem unloaded_engine_measurements (density : float) :
  calculate_volume __init__ = (Return None, __init__)
  /\ calculate_area __init__ = (Return None, __init__)
  /\ calculate_triangles __init__ = (Return None, __init__)
  /\ calculate_dimensions __init__ = (Return None, __init__)
  /\ calculate_mass density __init__ = (Raise TypeError, __init__).
Proof. repeat split; reflexivity. Qed.

(** C6, as stated, fails: right after construction the stored count is -1
    and the triangle list has length 0. *)
Lemma count_is_not_the_length_at_construction :
  triangles_count __init__ <> Z.of_nat (List.length (_triangles __init__)).
Proof. vm_compute. discriminate. Qed.

(** C6, amended: after construction the triangle list is empty and the
    stored count is the sentinel -1; after every successful load of a text
    file the stored count equals the length of the triangle list, and so it
    does after every successful load of a binary file whose count field is
    not negative. *)
Theorem count_is_the_length_after_load (fs : filesystem) (path : string)
  (s : self) :
  load_succeeds fs path s ->
  let s' := state_after (load_stl fs path) s in
  (_triangles __init__ = [] /\ triangles_count __init__ = (-1)%Z)
  /\ (is_binary_file s' = Some false ->
      triangles_count s' = Z.of_nat (List.length (_triangles s')))
  /\ (is_binary_file s' = Some true -> (0 <= triangles_count s')%Z ->
      triangles_count s' = Z.of_nat (List.length (_triangles s'))).
Proof.
  intros (b & Hb & Hbody) s'.
  split; [split; reflexivity |].
  subst s'. rewrite (load_stl_success fs path s b Hb Hbody).
  unfold result_of, state_after in *.
  destruct (load_body fs path (entering b s)) as [r s1] eqn:E.
  simpl in Hbody. subst r. simpl.
  destruct b.
  - apply binary_body_count in E; [| reflexivity | reflexivity].
    destruct E as (Hflag & Hlen & _). split.
    + rewrite Hflag. discriminate.
    + intros _ Hpos. rewrite Hlen. symmetry. apply Z2Nat.id. exact Hpos.
  - apply text_body_count in E; [| reflexivity].
    destruct E as [Hflag Hcount]. split.
    + intros _. exact Hcount.
    + rewrite Hflag. discriminate.
Qed.

(** The load of corner.stl into a new engine is such a load. *)
Lemma count_is_the_length_after_load_witness :
  load_succeeds disk "corner.stl" __init__
  /\ triangles_count corner_loaded
     = Z.of_nat (List.length (_triangles corner_loaded)).
Proof.
  assert (H : load_succeeds disk "corner.stl" __init__)
    by (exists true; split; vm_compute; reflexivity).
  split; [exact H |].
  apply (proj2 (proj2 (count_is_the_length_after_load
                         disk "corner.stl" __init__ H))).
  - vm_compute. reflexivity.
  - vm_compute. discriminate.
Defined.

(** On a non-empty list of vertex triples two calls of calculate_volume in
    a row return the same value: the first call returns a value and leaves
    it in the cache, the second call returns that cached value and changes
    nothing. *)
Lemma calculate_volume_twice (s : self) (ts : list Spec.Triangle) :
  ts <> [] -> _triangles s = map Spec.stored ts ->
  exists v : float,
    result_of calculate_volume s = Return (Some v)
    /\ _volume (state_after calculate_volume s) = Some v
    /\ calculate_volume (state_after calculate_volume s)
       = (Return (Some v), state_after calculate_volume s).
Proof.
  intros Hne Hts.
  assert (Hne' : forall s0, _triangles s0 = map Spec.stored ts ->
                            _triangles s0 <> []).
  { intros s0 E. rewrite E. destruct (stored_cons ts Hne) as (x & xs & Hx).
    rewrite Hx. discriminate. }
  unfold result_of, state_after.
  destruct (_volume s) as [c |] eqn:Hv.
  - rewrite (calculate_volume_cached s c (Hne' s Hts) Hv). simpl.
    exists c. split; [reflexivity | split; [exact Hv |]].
    apply calculate_volume_cached; [apply Hne', Hts | exact Hv].
  - rewrite (calculate_volume_computed s ts Hne Hts Hv). simpl.
    exists (Spec.volume ts). split; [reflexivity | split; [reflexivity |]].
    apply calculate_volume_cached; [apply Hne'; exact Hts | reflexivity].
Qed.

(** C7, at a failing input: bare_ascii.stl (a text file whose vertex lines
    follow the facet line at once) is loaded into a new engine.  The load
    completes and the triangle list is not empty: it holds one float.  Two
    calls of calculate_volume in a row both raise TypeError; neither returns
    a value and nothing is cached.  On a list of vertex triples the two
    calls do return the same, cached value ([calculate_volume_twice]). *)
Theorem calculate_volume_twice_after_text_load :
  let s := state_after (load_stl disk "bare_ascii.stl") __init__ in
  load_succeeds disk "bare_ascii.stl" __init__
  /\ _triangles s = [Scalar (Spec.vol corner)]
  /\ calculate_volume s = (Raise TypeError, s)
  /\ _volume (state_after calculate_volume s) = None
  /\ calculate_volume (state_after calculate_volume s) = (Raise TypeError, s).
Proof.
  split; [exists false; split; vm_compute; reflexivity |].
  vm_compute. repeat split; reflexivity.
Qed.

(** C8, at a failing input: bare_ascii.stl is loaded into a new engine.  The
    load completes and the triangle list is not empty, but it holds a float
    where calculate_area unpacks three vertices: the call raises TypeError
    and returns no area. *)
Theorem calculate_area_after_text_load :
  let s := state_after (load_stl disk "bare_ascii.stl") __init__ in
  load_succeeds disk "bare_ascii.stl" __init__
  /\ _triangles s = [Scalar (Spec.vol corner)]
  /\ triangles_count s = 1%Z
  /\ calculate_area s = (Raise TypeError, s).
Proof.
  split; [exists false; split; vm_compute; reflexivity |].
  vm_compute. repeat split; reflexivity.
Qed.

(** C9: for every entry of the catalogue, looking it up by its integer
    code and by any string that equals its name up to letter case returns
    the same density, the entry's; so get_density(2), get_density("pla")
    and get_density("PLA") agree. *)
Theorem get_density_by_code_or_name (k : Z) (m : Materials.material)
  (text : string) :
  In (k, m) Materials.materials_dict ->
  lower text = lower (Materials.name m) ->
  Materials.get_density (Int k) = Return (Materials.density m)
  /\ Materials.get_density (Str text) = Return (Materials.density m).
Proof.
  intros Hin Htext. unfold Materials.get_density.
  simpl in Hin.
  destruct Hin as [E | [E | [E | [E | []]]]]; injection E as <- <-;
    simpl in Htext;
    (split;
     [ reflexivity
     | unfold as_int, as_str, Materials.materials_dict, Materials.search_name,
         Materials.name;
       rewrite Htext; reflexivity ]).
Qed.

(** The entry 2, PLA, looked up as 2, "pla" and "PLA". *)
Lemma get_density_by_code_or_name_witness :
  (In (2%Z, Materials.mkmaterial "PLA" 1.25) Materials.materials_dict
   /\ lower "pla" = lower "PLA" /\ lower "PLA" = lower "PLA")
  /\ Materials.get_density (Int 2) = Materials.get_density (Str "pla")
  /\ Materials.get_density (Str "pla") = Materials.get_density (Str "PLA").
Proof.
  assert (Hin : In (2%Z, Materials.mkmaterial "PLA" 1.25)
                   Materials.materials_dict)
    by (simpl; right; left; reflexivity).
  assert (H1 : lower "pla" = lower (Materials.name
                                      (Materials.mkmaterial "PLA" 1.25)))
    by reflexivity.
  assert (H2 : lower "PLA" = lower (Materials.name
                                      (Materials.mkmaterial "PLA" 1.25)))
    by reflexivity.
  split; [auto |].
  destruct (get_density_by_code_or_name 2 _ "pla" Hin H1) as [Ecode Epla].
  destruct (get_density_by_code_or_name 2 _ "PLA" Hin H2) as [_ EPLA].
  split.
  - rewrite Ecode, Epla. reflexivity.
  - rewrite Epla, EPLA. reflexivity.
Defined.

(** C10: get_density(True) returns 1.04, the density of material 1 (ABS);
    it raises nothing. *)
Theorem get_density_of_True :
  Materials.get_density (Bool true) = Return 1.04
  /\ Materials.lookup 1 Materials.materials_dict
     = Some (Materials.mkmaterial "ABS" 1.04)
  /\ forall e, Materials.get_density (Bool true) <> Raise e.
Proof.
  split; [reflexivity | split; [reflexivity |]].
  intros e H. discriminate H.
Qed.

(** ** Further properties *)

Import Layout.

(** *** The material catalogue *)

Lemma lookup_outside (k : Z) :
  (k < 1 \/ 4 < k)%Z -> Materials.lookup k Materials.materials_dict = None.
Proof.
  intro H. unfold Materials.lookup, Materials.materials_dict.
  repeat match goal with
         | |- context [(?a =? k)%Z] =>
             destruct (Z.eqb_spec a k) as [E | _]; [lia |]
         end.
  reflexivity.
Qed.

Lemma lookup_In (k : Z) (d : list (Z * Materials.material))
  (m : Materials.material) :
  Materials.lookup k d = Some m -> In (k, m) d.
Proof.
  induction d as [| [k' m'] d IH]; simpl; intro H.
  - discriminate H.
  - destruct (Z.eqb_spec k' k) as [-> | _].
    + injection H as <-. left. reflexivity.
    + right. apply IH, H.
Qed.

Lemma search_name_In (text : string) (items : list (Z * Materials.material))
  (d : float) :
  Materials.search_name text items = Some d ->
  exists k m, In (k, m) items /\ d = Materials.density m
              /\ lower text = lower (Materials.name m).
Proof.
  induction items as [| [k m] items IH]; simpl; intro H.
  - discriminate H.
  - destruct (String.eqb_spec (lower (Materials.name m)) (lower text))
      as [E | _].
    + exists k, m. split; [left; reflexivity |].
      split; [| symmetry; exact E].
      apply (f_equal (fun o => match o with Some v => v | None => d end)) in H.
      symmetry. exact H.
    + destruct (IH H) as (k' & m' & Hin & Hd & Hl).
      exists k', m'. split; [right; exact Hin | split; assumption].
Qed.

Lemma search_name_none (text : string) (items : list (Z * Materials.material)) :
  (forall k m, In (k, m) items -> lower (Materials.name m) <> lower text) ->
  Materials.search_name text items = None.
Proof.
  induction items as [| [k m] items IH]; simpl; intro H.
  - reflexivity.
  - destruct (String.eqb_spec (lower (Materials.name m)) (lower text))
      as [E | _].
    + exfalso. apply (H k m); [left; reflexivity | exact E].
    + apply IH. intros k' m' Hin. apply (H k' m'). right. exact Hin.
Qed.

(** X1: an identifier that is not a string and is not (equal to) one of the
    codes 1..4 - an integer out of range, False, a float, None - makes
    get_density raise ValueError "Invalid material identifier". *)
Theorem get_density_invalid_identifier (identifier : object) :
  as_str identifier = None ->
  (forall k, as_int identifier = Some k -> (k < 1 \/ 4 < k)%Z) ->
  Materials.get_density identifier
  = Raise (ValueError "Invalid material identifier: " identifier).
Proof.
  intros Hstr Hint. unfold Materials.get_density. rewrite Hstr.
  destruct (as_int identifier) as [k |]; [| reflexivity].
  rewrite (lookup_outside k (Hint k eq_refl)). reflexivity.
Qed.

(** get_density(999) and get_density(2.0). *)
Lemma get_density_invalid_identifier_witness :
  Materials.get_density (Int 999)
  = Raise (ValueError "Invalid material identifier: " (Int 999))
  /\ Materials.get_density (Float 2)
     = Raise (ValueError "Invalid material identifier: " (Float 2)).
Proof.
  split.
  - apply get_density_invalid_identifier; [reflexivity |].
    intros k H. injection H as <-. lia.
  - apply get_density_invalid_identifier; [reflexivity |].
    intros k H. discriminate H.
Defined.

(** X2: a string that is no entry's name, letter case apart, makes
    get_density raise ValueError "Invalid material name". *)
Theorem get_density_unknown_name (text : string) :
  (forall k m, In (k, m) Materials.materials_dict ->
               lower (Materials.name m) <> lower text) ->
  Materials.get_density (Str text)
  = Raise (ValueError "Invalid material name: " (Str text)).
Proof.
  intro H. unfold Materials.get_density. cbn [as_int as_str].
  rewrite (search_name_none text _ H). reflexivity.
Qed.

(** get_density("unknown"). *)
Lemma get_density_unknown_name_witness :
  Materials.get_density (Str "unknown")
  = Raise (ValueError "Invalid material name: " (Str "unknown")).
Proof.
  apply get_density_unknown_name.
  intros k m Hin. simpl in Hin.
  destruct Hin as [E | [E | [E | [E | []]]]]; injection E as <- <-;
    vm_compute; discriminate.
Defined.

(** X3: whatever the identifier, a density that get_density returns is the
    density of an entry of the table, found under the integer the identifier
    equals or under a name that is the identifier up to letter case. *)
Theorem get_density_sound (identifier : object) (d : float) :
  Materials.get_density identifier = Return d ->
  exists k m,
    In (k, m) Materials.materials_dict /\ d = Materials.density m
    /\ (as_int identifier = Some k
        \/ exists text, identifier = Str text
                        /\ lower text = lower (Materials.name m)).
Proof.
  unfold Materials.get_density. intro H.
  destruct (as_int identifier) as [k |] eqn:Hint.
  - destruct (Materials.lookup k Materials.materials_dict) as [m |] eqn:Hl.
    + exists k, m. split; [apply lookup_In, Hl |].
      split; [| left; reflexivity].
      apply (f_equal (fun o => match o with Return v => v | Raise _ => d end))
        in H. symmetry. exact H.
    + destruct identifier; simpl in Hint, H; discriminate.
  - destruct identifier as [n | b | text | x |];
      cbn [as_int as_str] in Hint, H; try discriminate.
    destruct (Materials.search_name text Materials.materials_dict)
      as [d' |] eqn:Hs; [| discriminate H].
    destruct (search_name_In text _ d' Hs) as (k & m & Hin & Hd & Hlow).
    exists k, m. split; [exact Hin |].
    split; [| right; exists text; split; [reflexivity | exact Hlow]].
    apply (f_equal (fun o => match o with Return v => v | Raise _ => d end))
      in H. rewrite <- H. exact Hd.
Qed.

(** get_density("petg") returns the density of entry 3. *)
Lemma get_density_sound_witness :
  Materials.get_density (Str "petg") = Return 1.27
  /\ exists k m,
       In (k, m) Materials.materials_dict /\ 1.27 = Materials.density m
       /\ (as_int (Str "petg") = Some k
           \/ exists text, Str "petg" = Str text
                           /\ lower text = lower (Materials.name m)).
Proof.
  assert (H : Materials.get_density (Str "petg") = Return 1.27)
    by reflexivity.
  split; [exact H |].
  exact (get_density_sound (Str "petg") 1.27 H).
Defined.

(** *** load_stl: what it raises *)

(** X4: load_stl raises only when the file cannot be opened, and then it
    leaves the engine exactly as it was (the triangles of an earlier load
    included); for a file that exists every failure is caught and the call
    returns. *)
Theorem load_stl_raises_only_if_missing (fs : filesystem) (path : string)
  (s : self) :
  match fs path with
  | Some _ => result_of (load_stl fs path) s = Return tt
  | None => load_stl fs path s = (Raise FileNotFoundError, s)
  end.
Proof.
  unfold result_of, load_stl, _is_binary, open_rb, bind, lift, modify,
    try_except.
  destruct (fs path) as [bs |]; simpl; [| reflexivity].
  match goal with
  | |- context [load_body fs path ?s0] =>
      destruct (load_body fs path s0) as [[[] | e] s1]
  end; reflexivity.
Qed.

(** *** The binary reader *)

(** Reading [l] bytes at offset [k] of a record that sits in the file after
    [pre]. *)
Lemma chunk_within (pre r post : list byte) (k l : nat) :
  (k + l <= List.length r)%nat ->
  firstn l (skipn (List.length pre + k) (pre ++ r ++ post))
  = firstn l (skipn k r).
Proof.
  intro H.
  rewrite skipn_app, skipn_all2 by lia.
  replace (List.length pre + k - List.length pre)%nat with k by lia.
  rewrite app_nil_l, skipn_app, firstn_app, length_skipn.
  replace (l - (List.length r - k))%nat with 0%nat by lia.
  rewrite firstn_O, app_nil_r. reflexivity.
Qed.

Lemma chunk_first (pre r post : list byte) (l : nat) :
  (l <= List.length r)%nat ->
  firstn l (skipn (List.length pre) (pre ++ r ++ post)) = firstn l r.
Proof.
  intro H. pose proof (chunk_within pre r post 0 l H) as E.
  rewrite Nat.add_0_r in E. exact E.
Qed.

Lemma chunk_length (r : list byte) (k l : nat) :
  (k + l <= List.length r)%nat -> List.length (firstn l (skipn k r)) = l.
Proof. intro H. rewrite length_firstn, length_skipn. lia. Qed.

(** A read that [struct.unpack] accepts moves the position by the size of
    the format. *)
Lemma bind_unpack {C} (sig : fmt) (k : unpacked sig -> M C) (s : self)
  (d : list byte) (p q : nat) (v : unpacked sig) :
  _f s = Some (mkfile d p) ->
  unpack sig (firstn (calcsize sig) (skipn p d)) = Return v ->
  q = (p + calcsize sig)%nat ->
  bind (_unpack sig (calcsize sig)) k s
  = k v (with_f (Some (mkfile d q)) s).
Proof.
  intros Hf Hv ->. unfold _unpack, bind, f_read, lift, read. rewrite Hf.
  simpl data. simpl pos. rewrite Hv.
  assert (Hlen : List.length (firstn (calcsize sig) (skipn p d))
                 = calcsize sig).
  { unfold unpack in Hv.
    destruct (Nat.eqb_spec (List.length (firstn (calcsize sig) (skipn p d)))
                           (calcsize sig)) as [E | _].
    - exact E.
    - discriminate Hv. }
  rewrite Hlen. reflexivity.
Qed.

Lemma unpack_vertex (r : list byte) (k : nat) :
  (k + 12 <= List.length r)%nat ->
  unpack le_3f (firstn 12 (skipn k r)) = Return (vertex_at r k).
Proof.
  intro H. unfold unpack.
  rewrite (chunk_length r k 12 H). reflexivity.
Qed.

Lemma unpack_attribute (r : list byte) (k : nat) :
  (k + 2 <= List.length r)%nat ->
  unpack le_h (firstn 2 (skipn k r))
  = Return (le_signed (firstn 2 (skipn k r))).
Proof.
  intro H. unfold unpack.
  rewrite (chunk_length r k 2 H). reflexivity.
Qed.

(** One turn of the loop on a whole record. *)
Lemma read_and_append_decodes (s : self) (d pre r post : list byte) (p : nat) :
  _f s = Some (mkfile d p) -> d = pre ++ r ++ post -> p = List.length pre ->
  List.length r = 50%nat ->
  read_and_append s
  = (Return tt,
     with_triangles (_triangles s ++ [facet_of r])
                    (with_f (Some (mkfile d (p + 50))) s)).
Proof.
  intros Hf -> -> Hr. unfold read_and_append, _read_triangle.
  unfold bind at 1.
  erewrite (bind_unpack le_3f _ _ _ (List.length pre) (List.length pre + 12)
              (vertex_at r 0));
    [| exact Hf
     | cbn [calcsize]; rewrite chunk_first by lia;
       apply (unpack_vertex r 0); lia
     | reflexivity ].
  erewrite (bind_unpack le_3f _ _ _ (List.length pre + 12)
              (List.length pre + 24) (vertex_at r 12));
    [| reflexivity
     | cbn [calcsize]; rewrite chunk_within by lia; apply unpack_vertex; lia
     | simpl; lia ].
  erewrite (bind_unpack le_3f _ _ _ (List.length pre + 24)
              (List.length pre + 36) (vertex_at r 24));
    [| reflexivity
     | cbn [calcsize]; rewrite chunk_within by lia; apply unpack_vertex; lia
     | simpl; lia ].
  erewrite (bind_unpack le_3f _ _ _ (List.length pre + 36)
              (List.length pre + 48) (vertex_at r 36));
    [| reflexivity
     | cbn [calcsize]; rewrite chunk_within by lia; apply unpack_vertex; lia
     | simpl; lia ].
  erewrite (bind_unpack le_h _ _ _ (List.length pre + 48)
              (List.length pre + 50) (le_signed (firstn 2 (skipn 48 r))));
    [| reflexivity
     | cbn [calcsize]; rewrite chunk_within by lia;
       apply unpack_attribute; lia
     | simpl; lia ].
  reflexivity.
Qed.

(** The loop on as many whole records as it has turns. *)
Lemma for_range_decodes (recs : list (list byte)) :
  forall (s : self) (d pre post : list byte) (p : nat),
    _f s = Some (mkfile d p) -> d = pre ++ List.concat recs ++ post ->
    p = List.length pre ->
    Forall (fun r => List.length r = 50%nat) recs ->
    for_range (List.length recs) read_and_append s
    = (Return tt,
       with_triangles (_triangles s ++ map facet_of recs)
         (with_f (Some (mkfile d (p + 50 * List.length recs))) s)).
Proof.
  induction recs as [| r recs IH]; intros s d pre post p Hf Hd Hp Hall.
  - simpl. unfold ret. f_equal.
    destruct s as [f v ts n b]. simpl in *. subst f.
    unfold with_triangles, with_f. simpl.
    rewrite app_nil_r, Nat.add_0_r. reflexivity.
  - inversion Hall as [| ? ? Hr Hall']; subst.
    change (for_range (List.length (r :: recs)) read_and_append)
      with (bind read_and_append
                 (fun _ => for_range (List.length recs) read_and_append)).
    unfold bind.
    rewrite (read_and_append_decodes s _ pre r (List.concat recs ++ post)
               (List.length pre) Hf);
      [| simpl; rewrite <- app_assoc; reflexivity | reflexivity | exact Hr].
    rewrite (IH _ (pre ++ List.concat (r :: recs) ++ post) (pre ++ r) post
               (List.length pre + 50)%nat);
      [| reflexivity
       | simpl; rewrite <- !app_assoc; reflexivity
       | rewrite length_app, Hr; reflexivity
       | exact Hall' ].
    f_equal. unfold with_triangles, with_f.
    cbn [_f _volume _triangles triangles_count is_binary_file map
         List.length].
    rewrite <- app_assoc. cbn [app].
    replace (List.length pre + 50 + 50 * List.length recs)%nat
      with (List.length pre + 50 * S (List.length recs))%nat by lia.
    reflexivity.
Qed.

Lemma is_binary_of_header (fs : filesystem) (path : string)
  (header rest : list byte) :
  fs path = Some (header ++ rest) -> List.length header = 80%nat ->
  _is_binary fs path
  = Return (negb (startswith (string_of_list_byte header) "solid")).
Proof.
  intros Hfs Hlen. unfold _is_binary, open_rb, read. rewrite Hfs.
  cbn [obind data pos fst skipn].
  rewrite <- Hlen, firstn_app, firstn_all, Nat.sub_diag, firstn_O, app_nil_r.
  reflexivity.
Qed.

(** The binary branch up to its loop: the position is 84 and the count is
    the one of the file. *)
Lemma load_body_binary (fs : filesystem) (path : string) (s : self)
  (header cnt rest : list byte) :
  fs path = Some (header ++ cnt ++ rest) ->
  List.length header = 80%nat -> List.length cnt = 4%nat ->
  load_body fs path (entering true s)
  = for_range (Z.to_nat (le_signed cnt)) read_and_append
      (with_count (le_signed cnt)
         (with_f (Some (mkfile (header ++ cnt ++ rest) 84))
                 (entering true s))).
Proof.
  intros Hfs Hh Hc.
  assert (E : firstn 4 (skipn 80 (header ++ cnt ++ rest)) = cnt).
  { rewrite <- Hh, (chunk_first header cnt rest 4) by lia.
    rewrite <- Hc. apply firstn_all. }
  unfold load_body, _read_header, _read_length, bind, gets, lift, modify,
    open_rb, f_read, read, seek, tell.
  rewrite Hfs. cbn [entering is_binary_file with_triangles with_is_binary
                    with_f _f data pos fst snd].
  change (0 + 80)%nat with 80%nat. rewrite E.
  unfold unpack. rewrite Hc. cbn [calcsize Nat.eqb].
  reflexivity.
Qed.

Lemma load_stl_failure (fs : filesystem) (path : string) (s : self) (b : bool)
  (e : exn) :
  _is_binary fs path = Return b ->
  result_of (load_body fs path) (entering b s) = Raise e ->
  state_after (load_stl fs path) s
  = with_triangles [] (state_after (load_body fs path) (entering b s)).
Proof.
  intros Hb Hbody.
  unfold state_after, load_stl, bind, lift, modify, try_except.
  rewrite Hb. unfold result_of, entering in *.
  destruct (load_body fs path _) as [[[] | e'] s1]; simpl in *.
  - discriminate Hbody.
  - reflexivity.
Qed.

(** X5: a binary file made of an 80-byte header that does not start with
    "solid", a count field n, n whole 50-byte records and anything after
    them loads without failure: the triangle list is the facets of the
    records in file order (bytes 12..48 of each, three float32 per vertex),
    the stored count is n, and the cached volume is untouched. *)
Theorem binary_load_decodes (fs : filesystem) (path : string) (s : self)
  (header cnt tail : list byte) (recs : list (list byte)) :
  fs path = Some (header ++ cnt ++ List.concat recs ++ tail) ->
  binary_header header ->
  List.length cnt = 4%nat ->
  le_signed cnt = Z.of_nat (List.length recs) ->
  Forall (fun r => List.length r = 50%nat) recs ->
  let s' := state_after (load_stl fs path) s in
  load_succeeds fs path s
  /\ _triangles s' = map facet_of recs
  /\ triangles_count s' = Z.of_nat (List.length recs)
  /\ is_binary_file s' = Some true
  /\ _volume s' = _volume s.
Proof.
  intros Hfs [Hh Hsolid] Hc Hn Hall s'.
  assert (Hbin : _is_binary fs path = Return true).
  { rewrite (is_binary_of_header fs path header _ Hfs Hh), Hsolid.
    reflexivity. }
  assert (Hbody : load_body fs path (entering true s)
                  = (Return tt,
                     with_triangles (map facet_of recs)
                       (with_f (Some (mkfile
                                        (header ++ cnt ++ List.concat recs
                                         ++ tail)
                                        (84 + 50 * List.length recs)))
                          (with_count (Z.of_nat (List.length recs))
                             (entering true s))))).
  { rewrite (load_body_binary fs path s header cnt _ Hfs Hh Hc), Hn,
      Nat2Z.id.
    rewrite (for_range_decodes recs _
               (header ++ cnt ++ List.concat recs ++ tail)
               (header ++ cnt) tail 84%nat);
      [ reflexivity
      | reflexivity
      | rewrite <- app_assoc; reflexivity
      | rewrite length_app, Hh, Hc; reflexivity
      | exact Hall ]. }
  assert (Hok : result_of (load_body fs path) (entering true s) = Return tt)
    by (unfold result_of; rewrite Hbody; reflexivity).
  split; [exists true; split; assumption |].
  subst s'. rewrite (load_stl_success fs path s true Hbin Hok).
  unfold state_after. rewrite Hbody.
  repeat split; reflexivity.
Qed.

(** corner.stl is such a file, with one record. *)
Lemma binary_load_decodes_witness :
  load_succeeds disk "corner.stl" __init__
  /\ _triangles corner_loaded
     = map facet_of [record (point f32_1 f32_0 f32_0)
                            (point f32_0 f32_1 f32_0)
                            (point f32_0 f32_0 f32_1)]
  /\ triangles_count corner_loaded = 1%Z
  /\ is_binary_file corner_loaded = Some true
  /\ _volume corner_loaded = None.
Proof.
  apply (binary_load_decodes disk "corner.stl" __init__ (zeros 80) count1 []
           [record (point f32_1 f32_0 f32_0) (point f32_0 f32_1 f32_0)
                   (point f32_0 f32_0 f32_1)]).
  - vm_compute. reflexivity.
  - split; vm_compute; reflexivity.
  - reflexivity.
  - vm_compute. reflexivity.
  - repeat constructor.
Defined.

(** A read that succeeds had all its bytes. *)
Lemma unpack_returns (sig : fmt) (s s' : self) (v : unpacked sig) :
  _unpack sig (calcsize sig) s = (Return v, s') ->
  exists d p,
    _f s = Some (mkfile d p)
    /\ s' = with_f (Some (mkfile d (p + calcsize sig))) s
    /\ (p + calcsize sig <= List.length d)%nat.
Proof.
  unfold _unpack, bind, f_read, lift, read.
  destruct (_f s) as [[d p] |]; [| discriminate].
  cbn [data pos]. unfold unpack.
  destruct (Nat.eqb_spec (List.length (firstn (calcsize sig) (skipn p d)))
                         (calcsize sig)) as [E | _]; [| discriminate].
  intro H. apply (f_equal snd) in H. cbn [snd] in H.
  exists d, p. split; [reflexivity |]. split.
  - rewrite <- H, E. reflexivity.
  - rewrite length_firstn, length_skipn in E.
    assert (0 < calcsize sig)%nat by (destruct sig; simpl; lia).
    lia.
Qed.

Lemma read_and_append_consumes (s s' : self) :
  read_and_append s = (Return tt, s') ->
  exists d p,
    _f s = Some (mkfile d p) /\ _f s' = Some (mkfile d (p + 50))
    /\ (p + 50 <= List.length d)%nat.
Proof.
  intro H. apply bind_returns in H. destruct H as (t & s5 & Ht & H).
  assert (Hf : _f s' = _f s5).
  { destruct t as [[q1 q2] q3]. unfold append, modify in H.
    apply (f_equal snd) in H. cbn [snd] in H. rewrite <- H. reflexivity. }
  unfold _read_triangle in Ht.
  apply bind_returns in Ht. destruct Ht as (n & s1 & H1 & Ht).
  apply bind_returns in Ht. destruct Ht as (q1 & s2 & H2 & Ht).
  apply bind_returns in Ht. destruct Ht as (q2 & s3 & H3 & Ht).
  apply bind_returns in Ht. destruct Ht as (q3 & s4 & H4 & Ht).
  apply bind_returns in Ht. destruct Ht as (h & s5' & H5 & Ht).
  unfold ret in Ht. apply (f_equal snd) in Ht. cbn [snd] in Ht. subst s5'.
  apply (unpack_returns le_3f) in H1. destruct H1 as (d & p & E0 & -> & B1).
  apply (unpack_returns le_3f) in H2. destruct H2 as (d2 & p2 & E2 & -> & B2).
  cbn [_f with_f] in E2. injection E2 as <- <-.
  apply (unpack_returns le_3f) in H3. destruct H3 as (d3 & p3 & E3 & -> & B3).
  cbn [_f with_f] in E3. injection E3 as <- <-.
  apply (unpack_returns le_3f) in H4. destruct H4 as (d4 & p4 & E4 & -> & B4).
  cbn [_f with_f] in E4. injection E4 as <- <-.
  apply (unpack_returns le_h) in H5. destruct H5 as (d5 & p5 & E5 & -> & B5).
  cbn [_f with_f] in E5. injection E5 as <- <-.
  exists d, p. split; [exact E0 |]. cbn [calcsize] in *. split.
  - rewrite Hf. cbn [_f with_f]. do 2 f_equal. lia.
  - lia.
Qed.

Lemma for_range_consumes (k : nat) :
  forall (s s' : self) (d : list byte) (p : nat),
    for_range k read_and_append s = (Return tt, s') ->
    _f s = Some (mkfile d p) ->
    _f s' = Some (mkfile d (p + 50 * k))
    /\ (0 < k -> p + 50 * k <= List.length d)%nat.
Proof.
  induction k as [| k IH]; intros s s' d p H Hf.
  - simpl in H. unfold ret in H. apply (f_equal snd) in H. cbn [snd] in H.
    subst s'. split; [rewrite Hf; do 2 f_equal; lia | lia].
  - change (for_range (S k) read_and_append)
      with (bind read_and_append (fun _ => for_range k read_and_append)) in H.
    apply bind_returns in H. destruct H as ([] & s1 & H1 & H).
    apply read_and_append_consumes in H1.
    destruct H1 as (d1 & p1 & E & E1 & B).
    rewrite Hf in E. injection E as <- <-.
    destruct (IH s1 s' d (p + 50)%nat H E1) as [Ef Hb].
    split.
    + rewrite Ef. do 2 f_equal. lia.
    + intros _. destruct k as [| k]; [lia |].
      specialize (Hb ltac:(lia)). lia.
Qed.

(** A binary load completes only on a file that holds every record its
    count field announces. *)
Lemma completed_binary_load_length (fs : filesystem) (path : string)
  (s : self) (header cnt rest : list byte) :
  fs path = Some (header ++ cnt ++ rest) ->
  binary_header header ->
  List.length cnt = 4%nat ->
  load_succeeds fs path s ->
  (50 * le_signed cnt <= Z.of_nat (List.length rest))%Z.
Proof.
  intros Hfs [Hh Hsolid] Hc (b & Hb & Hbody).
  rewrite (is_binary_of_header fs path header _ Hfs Hh), Hsolid in Hb.
  apply (f_equal (fun o => match o with Return v => v | Raise _ => b end))
    in Hb. cbn in Hb. subst b.
  unfold result_of in Hbody.
  rewrite (load_body_binary fs path s header cnt rest Hfs Hh Hc) in Hbody.
  destruct (for_range _ _ _) as [[[] | e] s1] eqn:E; [| discriminate Hbody].
  destruct (for_range_consumes _ _ _ _ 84%nat E eq_refl) as [_ Hlen].
  destruct (Z.leb_spec (le_signed cnt) 0) as [Hneg | Hpos]; [lia |].
  specialize (Hlen ltac:(lia)).
  rewrite !length_app, Hh, Hc in Hlen. lia.
Qed.

(** X6: a binary load completes only if the file holds, after the 84 bytes
    of header and count field, 50 bytes for every record the count field
    announces. *)
Theorem binary_load_reads_every_record (fs : filesystem) (path : string)
  (s : self) (header cnt rest : list byte) :
  fs path = Some (header ++ cnt ++ rest) ->
  binary_header header ->
  List.length cnt = 4%nat ->
  load_succeeds fs path s ->
  (50 * le_signed cnt <= Z.of_nat (List.length rest))%Z.
Proof. exact (completed_binary_load_length fs path s header cnt rest). Qed.

(** corner.stl: one record announced, 50 bytes after the count field. *)
Lemma binary_load_reads_every_record_witness :
  load_succeeds disk "corner.stl" __init__
  /\ (50 * le_signed count1
      <= Z.of_nat (List.length (record (point f32_1 f32_0 f32_0)
                                       (point f32_0 f32_1 f32_0)
                                       (point f32_0 f32_0 f32_1))))%Z.
Proof.
  assert (Hfile : disk "corner.stl"%string
                  = Some (zeros 80 ++ count1
                          ++ record (point f32_1 f32_0 f32_0)
                                    (point f32_0 f32_1 f32_0)
                                    (point f32_0 f32_0 f32_1)))
    by (vm_compute; reflexivity).
  assert (Hh : binary_header (zeros 80)) by (split; vm_compute; reflexivity).
  assert (Hok : load_succeeds disk "corner.stl" __init__)
    by (exists true; split; vm_compute; reflexivity).
  split; [exact Hok |].
  exact (binary_load_reads_every_record disk "corner.stl" __init__ (zeros 80)
           count1 _ Hfile Hh eq_refl Hok).
Defined.

(** X7: a binary file that ends before the last record its count field
    announces fails to load, whatever the engine held: the triangle list is
    left empty, and the stored count is the announced one. *)
Theorem short_binary_load_fails (fs : filesystem) (path : string) (s : self)
  (header cnt rest : list byte) :
  fs path = Some (header ++ cnt ++ rest) ->
  binary_header header ->
  List.length cnt = 4%nat ->
  (Z.of_nat (List.length rest) < 50 * le_signed cnt)%Z ->
  let s' := state_after (load_stl fs path) s in
  ~ load_succeeds fs path s
  /\ _triangles s' = []
  /\ triangles_count s' = le_signed cnt.
Proof.
  intros Hfs Hhead Hc Hshort s'.
  assert (Hno : ~ load_succeeds fs path s).
  { intro Hok.
    pose proof (completed_binary_load_length fs path s header cnt rest
                  Hfs Hhead Hc Hok).
    lia. }
  split; [exact Hno |].
  destruct Hhead as [Hh Hsolid].
  assert (Hbin : _is_binary fs path = Return true).
  { rewrite (is_binary_of_header fs path header _ Hfs Hh), Hsolid.
    reflexivity. }
  destruct (result_of (load_body fs path) (entering true s))
    as [[] | e] eqn:Hbody.
  - exfalso. apply Hno. exists true. split; assumption.
  - subst s'. rewrite (load_stl_failure fs path s true e Hbin Hbody).
    split; [reflexivity |].
    unfold state_after.
    rewrite (load_body_binary fs path s header cnt rest Hfs Hh Hc).
    exact (preserves_for_range triangles_count _ read_and_append
             (preserves_read_and_append triangles_count
                (fun _ _ => eq_refl) (fun _ _ => eq_refl)) _).
Qed.

(** truncated.stl: one record announced, 20 bytes after the count field. *)
Lemma short_binary_load_fails_witness :
  ~ load_succeeds disk "truncated.stl" __init__
  /\ _triangles (state_after (load_stl disk "truncated.stl") __init__) = []
  /\ triangles_count (state_after (load_stl disk "truncated.stl") __init__)
     = le_signed count1.
Proof.
  apply (short_binary_load_fails disk "truncated.stl" __init__ (zeros 80)
           count1 (zeros 12 ++ f32_1 ++ f32_0)).
  - vm_compute. reflexivity.
  - split; vm_compute; reflexivity.
  - reflexivity.
  - vm_compute. reflexivity.
Defined.

(** X8: a binary file whose count field is zero or negative loads without
    failure and without a triangle; the count field is stored as it is, and
    the engine answers the measurements as a never-loaded one does
    (calculate_triangles returns None, not the stored count). *)
Theorem binary_load_without_records (fs : filesystem) (path : string)
  (s : self) (header cnt rest : list byte) :
  fs path = Some (header ++ cnt ++ rest) ->
  binary_header header ->
  List.length cnt = 4%nat ->
  (le_signed cnt <= 0)%Z ->
  let s' := state_after (load_stl fs path) s in
  load_succeeds fs path s
  /\ _triangles s' = []
  /\ triangles_count s' = le_signed cnt
  /\ result_of calculate_triangles s' = Return None
  /\ result_of calculate_area s' = Return None
  /\ result_of calculate_dimensions s' = Return None
  /\ result_of calculate_volume s' = Return None.
Proof.
  intros Hfs [Hh Hsolid] Hc Hn s'.
  assert (Hbin : _is_binary fs path = Return true).
  { rewrite (is_binary_of_header fs path header _ Hfs Hh), Hsolid.
    reflexivity. }
  assert (Hbody : load_body fs path (entering true s)
                  = (Return tt,
                     with_count (le_signed cnt)
                       (with_f (Some (mkfile (header ++ cnt ++ rest) 84))
                               (entering true s)))).
  { rewrite (load_body_binary fs path s header cnt rest Hfs Hh Hc).
    replace (Z.to_nat (le_signed cnt)) with 0%nat by lia. reflexivity. }
  assert (Hok : result_of (load_body fs path) (entering true s) = Return tt)
    by (unfold result_of; rewrite Hbody; reflexivity).
  split; [exists true; split; assumption |].
  subst s'. rewrite (load_stl_success fs path s true Hbin Hok).
  unfold state_after. rewrite Hbody.
  repeat split; reflexivity.
Qed.

(** A file of 84 zero bytes: a header and the count 0. *)
Lemma binary_load_without_records_witness :
  let fs : filesystem := fun _ => Some (zeros 80 ++ zeros 4 ++ []) in
  let s' := state_after (load_stl fs "empty.stl") corner_loaded in
  load_succeeds fs "empty.stl" corner_loaded
  /\ _triangles s' = []
  /\ triangles_count s' = le_signed (zeros 4)
  /\ result_of calculate_triangles s' = Return None
  /\ result_of calculate_area s' = Return None
  /\ result_of calculate_dimensions s' = Return None
  /\ result_of calculate_volume s' = Return None.
Proof.
  intros fs.
  apply (binary_load_without_records fs "empty.stl" corner_loaded (zeros 80)
           (zeros 4) []).
  - reflexivity.
  - split; vm_compute; reflexivity.
  - reflexivity.
  - vm_compute. discriminate.
Defined.

(** *** The measurements *)

(** X9: on an engine whose triangle list is a non-empty list of vertex
    triples and that holds no cached volume, calculate_mass returns the int
    -1 when the product of the volume (the signed-volume sum / 1000) and the
    density is <= 0, and that product otherwise; it leaves the volume in the
    cache. *)
Theorem calculate_mass_is_volume_times_density (s : self)
  (ts : list Spec.Triangle) (density : float) :
  ts <> [] -> _triangles s = map Spec.stored ts -> _volume s = None ->
  calculate_mass density s
  = (Return (if Spec.volume ts * density <=? 0
             then Int (-1)
             else Float (Spec.volume ts * density)),
     with_volume (Some (Spec.volume ts)) s).
Proof.
  intros Hne Hts Hv. unfold calculate_mass, bind.
  rewrite (calculate_volume_computed s ts Hne Hts Hv).
  unfold lift, ret.
  destruct (Spec.volume ts * density <=? 0); reflexivity.
Qed.

(** corner.stl at the density of PLA. *)
Lemma calculate_mass_is_volume_times_density_witness :
  calculate_mass 1.25 corner_loaded
  = (Return (if Spec.volume [corner] * 1.25 <=? 0
             then Int (-1)
             else Float (Spec.volume [corner] * 1.25)),
     with_volume (Some (Spec.volume [corner])) corner_loaded).
Proof.
  apply calculate_mass_is_volume_times_density.
  - discriminate.
  - vm_compute. reflexivity.
  - reflexivity.
Defined.

Lemma calculate_area_reads_only (s : self) : state_after calculate_area s = s.
Proof.
  unfold state_after, calculate_area, bind, gets, lift, ret.
  destruct (_triangles s) as [| x xs]; [reflexivity |].
  destruct (area_loop (x :: xs) 0); reflexivity.
Qed.

Lemma calculate_dimensions_reads_only (s : self) :
  state_after calculate_dimensions s = s.
Proof.
  unfold state_after, calculate_dimensions, bind, gets, lift, ret.
  destruct (_triangles s) as [| x xs]; [reflexivity |].
  destruct (box_loop (x :: xs) _); reflexivity.
Qed.

Lemma calculate_triangles_reads_only (s : self) :
  state_after calculate_triangles s = s.
Proof.
  unfold state_after, calculate_triangles, bind, gets, ret.
  destruct (_triangles s); reflexivity.
Qed.

Lemma calculate_volume_writes_cache_only (s : self) :
  state_after calculate_volume s
  = with_volume (_volume (state_after calculate_volume s)) s.
Proof.
  unfold state_after, calculate_volume, bind, gets, lift, modify, ret.
  destruct s as [f v ts n b]. cbn [_triangles _volume].
  destruct ts as [| x xs]; [reflexivity |].
  destruct v as [c |]; [reflexivity |].
  destruct (signed_volumes (x :: xs)); reflexivity.
Qed.

(** X10: whatever the engine holds and whether they return, return None or
    raise, calculate_area, calculate_triangles and calculate_dimensions
    leave every field of the engine as it was, and calculate_volume and
    calculate_mass change at most the cached volume. *)
Theorem measurements_keep_the_engine (s : self) (density : float) :
  state_after calculate_area s = s
  /\ state_after calculate_triangles s = s
  /\ state_after calculate_dimensions s = s
  /\ state_after calculate_volume s
     = with_volume (_volume (state_after calculate_volume s)) s
  /\ state_after (calculate_mass density) s = state_after calculate_volume s.
Proof.
  split; [apply calculate_area_reads_only |].
  split; [apply calculate_triangles_reads_only |].
  split; [apply calculate_dimensions_reads_only |].
  split; [apply calculate_volume_writes_cache_only |].
  unfold state_after, calculate_mass, bind, lift, ret.
  destruct (calculate_volume s) as [[[v |] | e] s1]; cbn [fst snd];
    try reflexivity.
  destruct (v * density <=? 0); reflexivity.
Qed.

(** X11: after a load that completes and leaves at least one triangle,
    calculate_triangles returns the number of elements of the triangle
    list. *)
Theorem calculate_triangles_counts_the_list (fs : filesystem) (path : string)
  (s : self) :
  load_succeeds fs path s ->
  let s' := state_after (load_stl fs path) s in
  _triangles s' <> [] ->
  result_of calculate_triangles s'
  = Return (Some (Z.of_nat (List.length (_triangles s')))).
Proof.
  intros (b & Hb & Hbody) s' Hne. subst s'.
  rewrite (load_stl_success fs path s b Hb Hbody) in *.
  unfold result_of, state_after in *.
  destruct (load_body fs path (entering b s)) as [r s1] eqn:E.
  cbn [fst snd] in *. subst r.
  assert (Hcount : triangles_count s1 = Z.of_nat (List.length (_triangles s1))).
  { destruct b.
    - apply binary_body_count in E; [| reflexivity | reflexivity].
      destruct E as (_ & Hlen & _).
      destruct (_triangles s1) as [| x xs]; [contradiction |].
      cbn [List.length] in *. lia.
    - apply text_body_count in E; [| reflexivity]. exact (proj2 E). }
  unfold calculate_triangles, bind, gets, ret.
  destruct (_triangles s1) as [| x xs]; [contradiction |].
  cbn [fst]. rewrite Hcount. reflexivity.
Qed.

(** corner.stl: one triangle. *)
Lemma calculate_triangles_counts_the_list_witness :
  load_succeeds disk "corner.stl" __init__
  /\ result_of calculate_triangles corner_loaded
     = Return (Some (Z.of_nat (List.length (_triangles corner_loaded)))).
Proof.
  assert (H : load_succeeds disk "corner.stl" __init__)
    by (exists true; split; vm_compute; reflexivity).
  split; [exact H |].
  apply (calculate_triangles_counts_the_list disk "corner.stl" __init__ H).
  vm_compute. discriminate.
Defined.

Lemma grow_folds (vs : list Spec.Vertex) :
  forall b : box,
    fold_left grow (map Spec.tuple vs) b
    = mkbox (fold_left Py.min (map Spec.x vs) (min_x b))
            (fold_left Py.min (map Spec.y vs) (min_y b))
            (fold_left Py.min (map Spec.z vs) (min_z b))
            (fold_left Py.max (map Spec.x vs) (max_x b))
            (fold_left Py.max (map Spec.y vs) (max_y b))
            (fold_left Py.max (map Spec.z vs) (max_z b)).
Proof.
  induction vs as [| v vs IH]; intro b.
  - destruct b. reflexivity.
  - cbn [map fold_left]. rewrite IH. reflexivity.
Qed.

Lemma box_loop_stored (ts : list Spec.Triangle) :
  forall b : box,
    box_loop (map Spec.stored ts) b
    = Return (fold_left grow (map Spec.tuple (vertices ts)) b).
Proof.
  induction ts as [| t ts IH]; intro b.
  - reflexivity.
  - change (box_loop (map Spec.stored (t :: ts)) b)
      with (box_loop (map Spec.stored ts)
              (fold_left grow
                 (map Spec.tuple [Spec.p1 t; Spec.p2 t; Spec.p3 t]) b)).
    rewrite IH.
    change (vertices (t :: ts))
      with ([Spec.p1 t; Spec.p2 t; Spec.p3 t] ++ vertices ts).
    rewrite map_app, fold_left_app. reflexivity.
Qed.

(** X12: for every engine whose triangle list is a non-empty list of vertex
    triples, calculate_dimensions returns, for each axis, the highest minus
    the lowest coordinate over every vertex of every triangle, where the
    running minimum starts at +infinity and the running maximum at
    -infinity; nothing is divided (the result is in the file's units). *)
Theorem calculate_dimensions_is_the_extent (s : self)
  (ts : list Spec.Triangle) :
  ts <> [] -> _triangles s = map Spec.stored ts ->
  calculate_dimensions s = (Return (Some (dimensions ts)), s).
Proof.
  intros Hne Hts.
  destruct (stored_cons ts Hne) as (x & xs & Hx).
  unfold calculate_dimensions, bind, gets, lift, ret.
  rewrite Hts, Hx, <- Hx, box_loop_stored, grow_folds. reflexivity.
Qed.

(** corner.stl: one unit along each axis. *)
Lemma calculate_dimensions_is_the_extent_witness :
  calculate_dimensions corner_loaded
  = (Return (Some (dimensions [corner])), corner_loaded)
  /\ dimensions [corner] = (1, 1, 1).
Proof.
  split.
  - apply calculate_dimensions_is_the_extent.
    + discriminate.
    + vm_compute. reflexivity.
  - vm_compute. reflexivity.
Defined.

(** X13: a volume once cached outlives every later load_stl, whatever the
    file and whether the load completes or fails; as long as the triangle
    list is not empty, calculate_volume goes on returning it. *)
Theorem cached_volume_outlives_loads (fs : filesystem) (path : string)
  (s : self) (c : float) :
  _volume s = Some c ->
  let s' := state_after (load_stl fs path) s in
  _volume s' = Some c
  /\ (_triangles s' <> [] -> calculate_volume s' = (Return (Some c), s')).
Proof.
  intros Hc s'.
  assert (Hc' : _volume s' = Some c)
    by (subst s'; rewrite (load_stl_keeps_volume fs path s); exact Hc).
  split; [exact Hc' |].
  intro Hne. apply calculate_volume_cached; assumption.
Qed.

(** corner.stl measured, then wide.stl loaded. *)
Lemma cached_volume_outlives_loads_witness :
  _volume (state_after calculate_volume corner_loaded)
  = Some (Spec.volume [corner])
  /\ _volume reloaded = Some (Spec.volume [corner])
  /\ calculate_volume reloaded = (Return (Some (Spec.volume [corner])), reloaded).
Proof.
  assert (H : _volume (state_after calculate_volume corner_loaded)
              = Some (Spec.volume [corner])) by (vm_compute; reflexivity).
  split; [exact H |].
  destruct (cached_volume_outlives_loads disk "wide.stl" _ _ H) as [H1 H2].
  split; [exact H1 |].
  apply H2. vm_compute. discriminate.
Defined.

(** *** The vertex-line pattern *)

Lemma digit_is_no_sign (c : ascii) : is_digit c = true -> is_sign c = false.
Proof.
  unfold is_digit, is_sign. intro H.
  apply andb_true_iff in H. destruct H as [H1 H2].
  apply Nat.leb_le in H1, H2.
  apply orb_false_iff. split; apply Nat.eqb_neq; lia.
Qed.

Lemma dot_is_no_digit (c : ascii) :
  (code c =? 46)%nat = true -> is_digit c = false.
Proof.
  unfold is_digit. intro H. apply Nat.eqb_eq in H. rewrite H. reflexivity.
Qed.

Lemma dot_is_no_sign (c : ascii) :
  (code c =? 46)%nat = true -> is_sign c = false.
Proof.
  unfold is_sign. intro H. apply Nat.eqb_eq in H. rewrite H. reflexivity.
Qed.

Lemma sign_is_no_digit (c : ascii) : is_sign c = true -> is_digit c = false.
Proof.
  intro H. destruct (is_digit c) eqn:E; [| reflexivity].
  rewrite (digit_is_no_sign c E) in H. discriminate H.
Qed.

Lemma span_digits_run (ds rest : list ascii) :
  digits ds -> no_digit_ahead rest -> span_digits (ds ++ rest) = (ds, rest).
Proof.
  intros Hds Hrest. induction Hds as [| d ds Hd _ IH].
  - destruct rest as [| c r]; [reflexivity |].
    simpl in *. rewrite Hrest. reflexivity.
  - simpl. rewrite Hd, IH. reflexivity.
Qed.

Lemma span_digits_spec (s : list ascii) :
  s = fst (span_digits s) ++ snd (span_digits s)
  /\ digits (fst (span_digits s))
  /\ no_digit_ahead (snd (span_digits s)).
Proof.
  induction s as [| c s IH].
  - repeat split. constructor.
  - simpl. destruct (is_digit c) eqn:Hc.
    + destruct (span_digits s) as [ds rest]. simpl in *.
      destruct IH as (E & Hds & Hrest).
      repeat split; [rewrite E at 1; reflexivity | | exact Hrest].
      constructor; assumption.
    + simpl. repeat split; [constructor | exact Hc].
Qed.

Lemma ends_number_no_digit (rest : list ascii) :
  ends_number rest -> no_digit_ahead rest.
Proof. destruct rest; [trivial | intros [H _]; exact H]. Qed.

(** The optional sign of [float_of_str] on text that starts with none. *)
Lemma unsigned_head (cs : list ascii) :
  match cs with [] => True | c :: _ => is_sign c = false end ->
  match cs with
  | c :: t => if is_sign c then ((code c =? 45)%nat, t) else (false, cs)
  | [] => (false, cs)
  end = (false, cs).
Proof. destruct cs as [| c t]; [reflexivity | intros ->; reflexivity]. Qed.

(** [float] accepts digits, a dot and at least one digit, with or without a
    sign in front. *)
Lemma float_of_decimal (sg ds fs : list ascii) (c2 : ascii) :
  match sg with
  | [] => True
  | [c] => is_sign c = true
  | _ => False
  end ->
  digits ds -> (code c2 =? 46)%nat = true -> digits fs -> fs <> [] ->
  exists x,
    float_of_str (string_of_list_ascii (sg ++ ds ++ c2 :: fs)) = Return x.
Proof.
  intros Hsg Hds Hdot Hfs Hne.
  unfold float_of_str. rewrite list_ascii_of_string_of_list_ascii.
  assert (Hrun : span_digits (ds ++ c2 :: fs) = (ds, c2 :: fs))
    by (apply span_digits_run;
        [exact Hds | simpl; apply dot_is_no_digit, Hdot]).
  assert (Hfrac : span_digits fs = (fs, [])).
  { rewrite <- (app_nil_r fs) at 1. apply span_digits_run; [exact Hfs |].
    exact I. }
  assert (Hsome : exists a l, ds ++ fs = a :: l).
  { destruct ds as [| d ds]; [| exists d, (ds ++ fs); reflexivity].
    destruct fs as [| f fs]; [contradiction | exists f, fs; reflexivity]. }
  destruct Hsome as (a & l & Hal).
  destruct sg as [| c [| c' sg]]; [| | contradiction].
  - cbn [app]. rewrite unsigned_head.
    + rewrite Hrun, Hdot, Hfrac, Hal. eexists. reflexivity.
    + destruct ds as [| d ds]; simpl.
      * apply dot_is_no_sign, Hdot.
      * inversion Hds. apply digit_is_no_sign. assumption.
  - cbn [app]. rewrite Hsg, Hrun, Hdot, Hfrac, Hal. eexists. reflexivity.
Qed.

(** [float] accepts a run of digits. *)
Lemma float_of_digits (ds : list ascii) :
  digits ds -> ds <> [] ->
  float_of_str (string_of_list_ascii ds)
  = Return (decimal_to_float false (digits_value ds) 0).
Proof.
  intros Hds Hne.
  unfold float_of_str. rewrite list_ascii_of_string_of_list_ascii.
  rewrite unsigned_head.
  - assert (Hrun : span_digits ds = (ds, [])).
    { rewrite <- (app_nil_r ds) at 1. apply span_digits_run; [exact Hds |].
      exact I. }
    rewrite Hrun. destruct ds; [contradiction | reflexivity].
  - destruct ds as [| d ds]; [exact I |].
    inversion Hds. apply digit_is_no_sign. assumption.
Qed.

Lemma match_number_parses (s tok : list ascii) :
  match_number s = Some tok ->
  exists x, float_of_str (string_of_list_ascii tok) = Return x.
Proof.
  unfold match_number.
  destruct (match_decimal s) as [t |] eqn:Hdec.
  - intro H. injection H as <-. revert Hdec. unfold match_decimal.
    set (split := match s with
                  | c :: t0 => if is_sign c then ([c], t0) else ([], s)
                  | [] => ([], s)
                  end).
    assert (Hsg : match fst split with
                  | [] => True
                  | [c] => is_sign c = true
                  | _ => False
                  end).
    { subst split. destruct s as [| c t0]; [exact I |].
      destruct (is_sign c) eqn:E; [exact E | exact I]. }
    destruct split as [sg s1]. cbn [fst] in Hsg.
    pose proof (span_digits_spec s1) as (_ & Hds & _).
    destruct (span_digits s1) as [ds s2]. cbn [fst] in Hds.
    destruct s2 as [| c2 s3]; [discriminate |].
    destruct (code c2 =? 46)%nat eqn:Hdot; [| discriminate].
    pose proof (span_digits_spec s3) as (_ & Hfs & _).
    destruct (fst (span_digits s3)) as [| f fs]; [discriminate |].
    intro H. injection H as <-.
    apply float_of_decimal; try assumption. discriminate.
  - unfold match_digits.
    pose proof (span_digits_spec s) as (_ & Hds & _).
    destruct (fst (span_digits s)) as [| d ds]; [discriminate |].
    intro H. injection H as <-. eexists.
    apply float_of_digits; [exact Hds | discriminate].
Qed.

Lemma findall_from_parses (s : list ascii) :
  forall skip,
    Forall (fun t => exists x, float_of_str t = Return x)
           (findall_from skip s).
Proof.
  induction s as [| c s IH]; intro skip; simpl.
  - constructor.
  - destruct skip as [| k]; [| apply IH].
    destruct (match_number (c :: s)) as [tok |] eqn:E; [| apply IH].
    constructor; [exact (match_number_parses _ _ E) | apply IH].
Qed.

Lemma map_float_returns (toks : list string) :
  Forall (fun t => exists x, float_of_str t = Return x) toks ->
  exists xs, map_float toks = Return xs
             /\ List.length xs = List.length toks.
Proof.
  induction 1 as [| t toks [x Hx] _ (xs & Hxs & Hlen)].
  - exists []. split; reflexivity.
  - exists (x :: xs). simpl. rewrite Hx, Hxs. simpl.
    split; [reflexivity | rewrite Hlen; reflexivity].
Qed.

(** Whatever the line, converting its tokens raises nothing. *)
Lemma numbers_of_line (line : string) :
  exists xs, map_float (findall_numbers line) = Return xs
             /\ List.length xs = List.length (findall_numbers line).
Proof. apply map_float_returns, findall_from_parses. Qed.

Lemma signed_volume_of_lists_raises (p1 p2 p3 : list float) (e : exn) :
  _signed_volume_of_triangle p1 p2 p3 = Raise e -> e = IndexError.
Proof.
  unfold _signed_volume_of_triangle, product, subscript, list_subscript,
    getitem.
  repeat match goal with
         | |- context [nth_error ?l ?i] =>
             destruct (nth_error l i); cbn [obind];
             [| intro H; injection H as <-; reflexivity]
         end.
  discriminate.
Qed.

Lemma read_ascii_triangle_raises (lines : list string) (index : nat)
  (e : exn) :
  _read_ascii_triangle lines index = Raise e -> e = IndexError.
Proof.
  unfold _read_ascii_triangle.
  assert (Hget : forall i r, getitem lines i = Raise r -> r = IndexError).
  { intros i r. unfold getitem. destruct (nth_error lines i); intro H.
    - discriminate H.
    - injection H as <-. reflexivity. }
  destruct (getitem lines (index + 1)) as [l1 | r] eqn:E1; cbn [obind];
    [| intro H; injection H as <-; exact (Hget _ _ E1)].
  destruct (numbers_of_line l1) as (p1 & -> & _). cbn [obind].
  destruct (getitem lines (index + 2)) as [l2 | r] eqn:E2; cbn [obind];
    [| intro H; injection H as <-; exact (Hget _ _ E2)].
  destruct (numbers_of_line l2) as (p2 & -> & _). cbn [obind].
  destruct (getitem lines (index + 3)) as [l3 | r] eqn:E3; cbn [obind];
    [| intro H; injection H as <-; exact (Hget _ _ E3)].
  destruct (numbers_of_line l3) as (p3 & -> & _). cbn [obind].
  apply signed_volume_of_lists_raises.
Qed.

(** X14: whatever the lines, the only exception _read_ascii_triangle raises
    is IndexError ("list index out of range"): a line is missing, or a line
    holds fewer numbers than the volume formula indexes; converting the
    tokens of the pattern to float never fails. *)
Theorem read_ascii_triangle_raises_IndexError_only (lines : list string)
  (index : nat) (e : exn) :
  _read_ascii_triangle lines index = Raise e -> e = IndexError.
Proof. exact (read_ascii_triangle_raises lines index e). Qed.

(** The facet line of corner_ascii.stl is followed by "outer loop". *)
Lemma read_ascii_triangle_raises_IndexError_only_witness :
  let lines := split_lines [] (list_ascii_of_string corner_text) in
  exists e, _read_ascii_triangle lines 1 = Raise e /\ e = IndexError.
Proof.
  intro lines. exists IndexError.
  assert (H : _read_ascii_triangle lines 1 = Raise IndexError)
    by (vm_compute; reflexivity).
  split; [exact H |].
  exact (read_ascii_triangle_raises_IndexError_only lines 1 IndexError H).
Defined.

(** *** What the pattern takes for a number *)

Lemma findall_from_skip (pre rest : list ascii) :
  findall_from (List.length pre) (pre ++ rest) = findall_from 0 rest.
Proof. induction pre as [| c pre IH]; [reflexivity | exact IH]. Qed.

(** A match at the head is kept, and the scan resumes after it. *)
Lemma findall_token (tok rest : list ascii) :
  tok <> [] -> match_number (tok ++ rest) = Some tok ->
  findall_from 0 (tok ++ rest)
  = string_of_list_ascii tok :: findall_from 0 rest.
Proof.
  destruct tok as [| c tok]; [contradiction |]. intros _ H.
  cbn [app findall_from] in *. rewrite H.
  replace (List.length (c :: tok) - 1)%nat with (List.length tok)
    by (cbn [List.length]; lia).
  rewrite findall_from_skip. reflexivity.
Qed.

(** No match at the head: the scan moves one character on. *)
Lemma findall_no_token (c : ascii) (rest : list ascii) :
  match_number (c :: rest) = None ->
  findall_from 0 (c :: rest) = findall_from 0 rest.
Proof. intro H. cbn [findall_from]. rewrite H. reflexivity. Qed.

Lemma ends_number_no_dot (ds rest : list ascii) :
  ends_number rest ->
  match rest with
  | c :: s3 =>
      if (code c =? 46)%nat
      then match fst (span_digits s3) with
           | [] => None
           | fs => Some (ds ++ c :: fs)
           end
      else None
  | [] => None
  end = None.
Proof.
  destruct rest as [| c s3]; [reflexivity |].
  intros [_ Hdot]. rewrite Hdot. reflexivity.
Qed.

(** A sign in front of digits that no dot follows matches nothing. *)
Lemma match_number_sign (sg : ascii) (ds rest : list ascii) :
  is_sign sg = true -> digits ds -> ends_number rest ->
  match_number (sg :: ds ++ rest) = None.
Proof.
  intros Hsg Hds Hrest. unfold match_number, match_decimal, match_digits.
  rewrite Hsg.
  rewrite (span_digits_run ds rest Hds (ends_number_no_digit rest Hrest)).
  destruct rest as [| c s3].
  - cbn [span_digits]. rewrite (sign_is_no_digit sg Hsg). reflexivity.
  - destruct Hrest as [_ Hdot]. rewrite Hdot.
    cbn [span_digits]. rewrite (sign_is_no_digit sg Hsg). reflexivity.
Qed.

(** Digits that no dot follows match as they are. *)
Lemma match_number_digits (ds rest : list ascii) :
  digits ds -> ds <> [] -> ends_number rest ->
  match_number (ds ++ rest) = Some ds.
Proof.
  intros Hds Hne Hrest. unfold match_number, match_decimal, match_digits.
  pose proof (span_digits_run ds rest Hds (ends_number_no_digit rest Hrest))
    as Hrun.
  destruct ds as [| d ds]; [contradiction |].
  assert (Hd : is_sign d = false)
    by (inversion Hds; apply digit_is_no_sign; assumption).
  cbn [app] in *. rewrite Hd, Hrun. cbn [fst].
  destruct rest as [| c s3]; [reflexivity |].
  destruct Hrest as [_ Hdot]. rewrite Hdot. reflexivity.
Qed.

(** Digits, a dot and digits match together. *)
Lemma match_number_decimal (a b rest : list ascii) (dot : ascii) :
  digits a -> (code dot =? 46)%nat = true -> digits b -> b <> [] ->
  no_digit_ahead rest ->
  match_number (a ++ dot :: b ++ rest) = Some (a ++ dot :: b).
Proof.
  intros Ha Hdot Hb Hne Hrest. unfold match_number, match_decimal.
  assert (Hhead : match a ++ dot :: b ++ rest with
                  | c :: t => if is_sign c then ([c], t)
                              else ([], a ++ dot :: b ++ rest)
                  | [] => ([], a ++ dot :: b ++ rest)
                  end = ([], a ++ dot :: b ++ rest)).
  { destruct a as [| d a]; cbn [app].
    - rewrite (dot_is_no_sign dot Hdot). reflexivity.
    - inversion Ha; subst.
      rewrite (digit_is_no_sign d); [reflexivity | assumption]. }
  rewrite Hhead.
  rewrite (span_digits_run a (dot :: b ++ rest) Ha);
    [| simpl; apply dot_is_no_digit, Hdot].
  rewrite Hdot, (span_digits_run b rest Hb Hrest). cbn [fst].
  destruct b as [| f b]; [contradiction | reflexivity].
Qed.

(** A character that is no digit, sign or dot matches nothing. *)
Lemma match_number_other (c : ascii) (rest : list ascii) :
  is_digit c = false -> is_sign c = false -> (code c =? 46)%nat = false ->
  match_number (c :: rest) = None.
Proof.
  intros Hd Hs Hdot. unfold match_number, match_decimal, match_digits.
  rewrite Hs. cbn [span_digits]. rewrite Hd, Hdot. reflexivity.
Qed.

Lemma findall_signed_digits (sg : ascii) (ds rest : list ascii) :
  is_sign sg = true -> digits ds -> ds <> [] -> ends_number rest ->
  findall_from 0 (sg :: ds ++ rest)
  = string_of_list_ascii ds :: findall_from 0 rest.
Proof.
  intros Hsg Hds Hne Hrest.
  rewrite (findall_no_token sg _ (match_number_sign sg ds rest Hsg Hds Hrest)).
  apply findall_token; [exact Hne |].
  apply match_number_digits; assumption.
Qed.

(** X15: the vertex-line pattern drops the sign of a number written without
    a dot: where a line holds a sign, digits and then neither a digit nor a
    dot, re.findall yields the digits alone, which float reads as a number
    that is not negative, and carries on with the rest of the line. *)
Theorem findall_drops_the_sign_of_an_integer (sg : ascii)
  (ds rest : list ascii) :
  is_sign sg = true -> digits ds -> ds <> [] -> ends_number rest ->
  findall_numbers (string_of_list_ascii (sg :: ds ++ rest))
  = string_of_list_ascii ds :: findall_numbers (string_of_list_ascii rest)
  /\ float_of_str (string_of_list_ascii ds)
     = Return (decimal_to_float false (digits_value ds) 0).
Proof.
  intros Hsg Hds Hne Hrest. split.
  - unfold findall_numbers. rewrite !list_ascii_of_string_of_list_ascii.
    apply findall_signed_digits; assumption.
  - apply float_of_digits; assumption.
Qed.

(** "-5 0 0" is read as 5, 0, 0. *)
Lemma findall_drops_the_sign_of_an_integer_witness :
  findall_numbers "-5 0 0" = ["5"; "0"; "0"]%string
  /\ float_of_str "5" = Return 5.
Proof.
  destruct (findall_drops_the_sign_of_an_integer
              "-"%char ["5"%char] (list_ascii_of_string " 0 0"))
    as [H1 H2].
  - reflexivity.
  - repeat constructor.
  - discriminate.
  - split; reflexivity.
  - split; [exact H1 | exact H2].
Defined.

(** X16: the vertex-line pattern splits a number in exponent notation in
    two: where a line holds digits, a dot, digits, the letter e, a sign and
    digits, and then neither a digit nor a dot, re.findall yields the
    mantissa and the digits of the exponent as two numbers (so one
    coordinate takes the place of two). *)
Theorem findall_splits_exponent_notation (a b ex rest : list ascii)
  (dot e sg : ascii) :
  digits a -> (code dot =? 46)%nat = true -> digits b -> b <> [] ->
  (code e =? 101)%nat = true -> is_sign sg = true ->
  digits ex -> ex <> [] -> ends_number rest ->
  findall_numbers
    (string_of_list_ascii (a ++ dot :: b ++ e :: sg :: ex ++ rest))
  = string_of_list_ascii (a ++ dot :: b)
    :: string_of_list_ascii ex
    :: findall_numbers (string_of_list_ascii rest).
Proof.
  intros Ha Hdot Hb Hbne He Hsg Hex Hexne Hrest.
  unfold findall_numbers. rewrite !list_ascii_of_string_of_list_ascii.
  assert (Hcode : code e = 101%nat) by (apply Nat.eqb_eq, He).
  assert (Hed : is_digit e = false) by (unfold is_digit; rewrite Hcode;
                                        reflexivity).
  assert (Hes : is_sign e = false) by (unfold is_sign; rewrite Hcode;
                                       reflexivity).
  assert (Hedot : (code e =? 46)%nat = false) by (rewrite Hcode; reflexivity).
  replace (a ++ dot :: b ++ e :: sg :: ex ++ rest)
    with ((a ++ dot :: b) ++ e :: sg :: ex ++ rest)
    by (rewrite <- app_assoc; reflexivity).
  rewrite findall_token.
  - rewrite (findall_no_token e _ (match_number_other e _ Hed Hes Hedot)).
    rewrite (findall_signed_digits sg ex rest Hsg Hex Hexne Hrest).
    reflexivity.
  - destruct a; discriminate.
  - rewrite <- app_assoc. cbn [app].
    apply match_number_decimal; assumption.
Qed.

(** "1.5e+01 2" is read as 1.5, 01, 2. *)
Lemma findall_splits_exponent_notation_witness :
  findall_numbers "1.5e+01 2" = ["1.5"; "01"; "2"]%string.
Proof.
  apply (findall_splits_exponent_notation
           ["1"%char] ["5"%char] ["0"%char; "1"%char]
           (list_ascii_of_string " 2") "."%char "e"%char "+"%char).
  - repeat constructor.
  - reflexivity.
  - repeat constructor.
  - discriminate.
  - reflexivity.
  - reflexivity.
  - repeat constructor.
  - discriminate.
  - split; reflexivity.
Defined.

(** *** The text branch as a whole *)

Lemma text_branch_unmeasured (fs : filesystem) (path : string) (s : self) :
  _is_binary fs path = Return false ->
  let s' := state_after (load_stl fs path) s in
  (result_of calculate_area s' = Return None
   \/ result_of calculate_area s' = Raise TypeError)
  /\ (result_of calculate_dimensions s' = Return None
      \/ result_of calculate_dimensions s' = Raise TypeError)
  /\ (_volume s = None ->
      result_of calculate_volume s' = Return None
      \/ result_of calculate_volume s' = Raise TypeError).
Proof.
  intros Hb s'.
  pose proof (text_load_scalars fs path s Hb) as Hs.
  pose proof (load_stl_keeps_volume fs path s) as Hv.
  fold s' in Hs, Hv.
  unfold result_of, calculate_area, calculate_dimensions, calculate_volume,
    bind, gets, lift, modify, ret.
  destruct (_triangles s') as [| x xs].
  - repeat split; intros; left; reflexivity.
  - inversion Hs as [| ? ? Hx _]. destruct x as [q1 q2 q3 | v];
      [contradiction |].
    split; [right; reflexivity |].
    split; [right; reflexivity |].
    intro Hnone. rewrite Hv, Hnone. right. reflexivity.
Qed.

(** X17: after load_stl has taken the text branch (the file starts with
    "solid"), whatever the file holds, calculate_area and
    calculate_dimensions return None or raise TypeError, never a
    measurement, and so does calculate_volume unless a volume was cached
    before the load. *)
Theorem text_load_is_never_measured (fs : filesystem) (path : string)
  (s : self) :
  _is_binary fs path = Return false ->
  let s' := state_after (load_stl fs path) s in
  (result_of calculate_area s' = Return None
   \/ result_of calculate_area s' = Raise TypeError)
  /\ (result_of calculate_dimensions s' = Return None
      \/ result_of calculate_dimensions s' = Raise TypeError)
  /\ (_volume s = None ->
      result_of calculate_volume s' = Return None
      \/ result_of calculate_volume s' = Raise TypeError).
Proof. exact (text_branch_unmeasured fs path s). Qed.

(** bare_ascii.stl, which loads: no measurement either. *)
Lemma text_load_is_never_measured_witness :
  let s' := state_after (load_stl disk "bare_ascii.stl") __init__ in
  _is_binary disk "bare_ascii.stl" = Return false
  /\ (result_of calculate_area s' = Return None
      \/ result_of calculate_area s' = Raise TypeError)
  /\ (result_of calculate_dimensions s' = Return None
      \/ result_of calculate_dimensions s' = Raise TypeError)
  /\ (_volume __init__ = None ->
      result_of calculate_volume s' = Return None
      \/ result_of calculate_volume s' = Raise TypeError).
Proof.
  intro s'.
  assert (H : _is_binary disk "bare_ascii.stl" = Return false)
    by (vm_compute; reflexivity).
  split; [exact H |].
  exact (text_load_is_never_measured disk "bare_ascii.stl" __init__ H).
Defined.

Lemma getitem_nth {A} (l : list A) (i : nat) (d : A) :
  (i < List.length l)%nat -> getitem l i = Return (nth i l d).
Proof.
  intro H. unfold getitem.
  rewrite (nth_error_nth' l d H). reflexivity.
Qed.

Lemma getitem_returns {A} (l : list A) (i : nat) (d a : A) :
  getitem l i = Return a -> nth i l d = a.
Proof.
  unfold getitem. destruct (nth_error l i) as [x |] eqn:E; intro H.
  - apply (f_equal (fun o => match o with Return v => v | Raise _ => d end))
      in H. cbn in H. subst x. apply nth_error_nth, E.
  - discriminate H.
Qed.

(** Lines that do not start a facet are stepped over one by one. *)
Lemma while_facets_skips (n : nat) :
  forall (i fuel : nat) (lines : list string) (s : self),
    (forall j, (i <= j < i + n)%nat ->
               (j < List.length lines)%nat
               /\ startswith (strip (nth j lines EmptyString)) "facet"
                  = false) ->
    while_facets (n + fuel) lines i s = while_facets fuel lines (i + n) s.
Proof.
  induction n as [| n IH]; intros i fuel lines s H.
  - rewrite Nat.add_0_r. reflexivity.
  - destruct (H i ltac:(lia)) as [Hlen Hno].
    cbn [Nat.add while_facets].
    apply Nat.ltb_lt in Hlen. rewrite Hlen. apply Nat.ltb_lt in Hlen.
    unfold bind at 1, lift at 1.
    rewrite (getitem_nth lines i EmptyString Hlen), Hno.
    rewrite IH.
    + replace (i + 1 + n)%nat with (i + S n)%nat by lia. reflexivity.
    + intros j Hj. apply H. lia.
Qed.

Lemma signed_volume_short (p1 p2 p3 : list float) :
  (List.length p1 < 3)%nat ->
  _signed_volume_of_triangle p1 p2 p3 = Raise IndexError.
Proof.
  intro H.
  unfold _signed_volume_of_triangle, product, subscript, list_subscript,
    getitem.
  assert (E : nth_error p1 2 = None) by (apply nth_error_None; lia).
  rewrite E.
  destruct (nth_error p3 0); [| reflexivity].
  destruct (nth_error p2 1); reflexivity.
Qed.

(** A facet line followed by a line with fewer than three numbers. *)
Lemma read_ascii_triangle_short (lines : list string) (i : nat) :
  (List.length (findall_numbers (nth (i + 1) lines EmptyString)) < 3)%nat ->
  _read_ascii_triangle lines i = Raise IndexError.
Proof.
  intro H. unfold _read_ascii_triangle.
  assert (Hget : forall k, (exists l, getitem lines k = Return l)
                           \/ getitem lines k = Raise IndexError).
  { intro k. unfold getitem. destruct (nth_error lines k) as [l |].
    - left. exists l. reflexivity.
    - right. reflexivity. }
  destruct (Hget (i + 1)%nat) as [[l1 E1] | E1]; rewrite E1; cbn [obind];
    [| reflexivity].
  rewrite <- (getitem_returns lines (i + 1) EmptyString l1 E1).
  destruct (numbers_of_line (nth (i + 1) lines EmptyString))
    as (p1 & -> & Hlen1). cbn [obind].
  destruct (Hget (i + 2)%nat) as [[l2 E2] | E2]; rewrite E2; cbn [obind];
    [| reflexivity].
  destruct (numbers_of_line l2) as (p2 & -> & _). cbn [obind].
  destruct (Hget (i + 3)%nat) as [[l3 E3] | E3]; rewrite E3; cbn [obind];
    [| reflexivity].
  destruct (numbers_of_line l3) as (p3 & -> & _). cbn [obind].
  apply signed_volume_short. lia.
Qed.

(** X18: a text file whose first facet line is followed by a line with
    fewer than three numbers - the "outer loop" line of the usual layout -
    fails to load with IndexError at that facet: the triangle list is left
    empty and the stored count is the one the engine had before. *)
Theorem text_load_fails_at_outer_loop (fs : filesystem) (path : string)
  (s : self) (lines : list string) (i : nat) :
  _is_binary fs path = Return false ->
  readlines fs path = Return lines ->
  (i < List.length lines)%nat ->
  (forall j, (j < i)%nat ->
             startswith (strip (nth j lines EmptyString)) "facet" = false) ->
  startswith (strip (nth i lines EmptyString)) "facet" = true ->
  (List.length (findall_numbers (nth (i + 1) lines EmptyString)) < 3)%nat ->
  let s' := state_after (load_stl fs path) s in
  result_of (load_body fs path) (entering false s) = Raise IndexError
  /\ _triangles s' = []
  /\ triangles_count s' = triangles_count s.
Proof.
  intros Hb Hlines Hi Hbefore Hfacet Hshort s'.
  assert (Hbody : load_body fs path (entering false s)
                  = (Raise IndexError, entering false s)).
  { unfold load_body, bind at 1, gets at 1.
    cbn [entering is_binary_file with_triangles with_is_binary].
    unfold bind at 1, lift at 1. rewrite Hlines.
    unfold bind at 1.
    replace (List.length lines) with (i + (List.length lines - i))%nat
      at 1 by lia.
    rewrite while_facets_skips;
      [| intros j Hj; split; [lia | apply Hbefore; lia]].
    destruct (List.length lines - i)%nat as [| fuel] eqn:Hfuel; [lia |].
    cbn [Nat.add while_facets].
    apply Nat.ltb_lt in Hi. rewrite Hi. apply Nat.ltb_lt in Hi.
    unfold bind at 1, lift at 1.
    rewrite (getitem_nth lines i EmptyString Hi), Hfacet.
    unfold bind at 1, lift at 1.
    rewrite (read_ascii_triangle_short lines i Hshort).
    reflexivity. }
  assert (Hres : result_of (load_body fs path) (entering false s)
                 = Raise IndexError)
    by (unfold result_of; rewrite Hbody; reflexivity).
  split; [exact Hres |].
  subst s'. rewrite (load_stl_failure fs path s false IndexError Hb Hres).
  unfold state_after. rewrite Hbody. split; reflexivity.
Qed.

(** corner_ascii.stl: the facet line is line 1, "outer loop" is line 2. *)
Lemma text_load_fails_at_outer_loop_witness :
  let s' := state_after (load_stl disk "corner_ascii.stl") corner_loaded in
  result_of (load_body disk "corner_ascii.stl") (entering false corner_loaded)
  = Raise IndexError
  /\ _triangles s' = []
  /\ triangles_count s' = triangles_count corner_loaded.
Proof.
  apply (text_load_fails_at_outer_loop disk "corner_ascii.stl" corner_loaded
           (split_lines [] (list_ascii_of_string corner_text)) 1).
  - vm_compute. reflexivity.
  - vm_compute. reflexivity.
  - vm_compute. lia.
  - intros j Hj. destruct j as [| j]; [vm_compute; reflexivity | lia].
  - vm_compute. reflexivity.
  - vm_compute. lia.
Defined.

(** *** Files the detection or the header rules out *)

Lemma load_body_keeps_flag (fs : filesystem) (path : string) :
  preserves is_binary_file (load_body fs path).
Proof.
  unfold load_body. frame.
  match goal with
  | |- preserves _ (if ?b then _ else _) => destruct b
  end; frame.
Qed.

(** Whatever its length, a file is classified on its first 80 bytes. *)
Lemma is_binary_of_bytes (fs : filesystem) (path : string) (bs : list byte) :
  fs path = Some bs ->
  _is_binary fs path
  = Return (negb (startswith (string_of_list_byte (firstn 80 bs)) "solid")).
Proof.
  intro Hfs. unfold _is_binary, open_rb, read. rewrite Hfs. reflexivity.
Qed.

Lemma solid_prefix (bs : list byte) :
  firstn 5 bs = list_byte_of_string "solid" ->
  startswith (string_of_list_byte (firstn 80 bs)) "solid" = true.
Proof.
  destruct bs as [| b1 [| b2 [| b3 [| b4 [| b5 rest]]]]]; try discriminate.
  intro H. cbn [firstn] in H. injection H as -> -> -> -> ->.
  change (firstn 80 ("s"%byte :: "o"%byte :: "l"%byte :: "i"%byte
                     :: "d"%byte :: rest))
    with ("s"%byte :: "o"%byte :: "l"%byte :: "i"%byte :: "d"%byte
          :: firstn 75 rest).
  change (string_of_list_byte
            ("s"%byte :: "o"%byte :: "l"%byte :: "i"%byte :: "d"%byte
             :: firstn 75 rest))
    with ("solid" ++ string_of_list_byte (firstn 75 rest))%string.
  generalize (string_of_list_byte (firstn 75 rest)). intro tail.
  unfold startswith. cbn. destruct tail; reflexivity.
Qed.

(** X19: a file whose first five bytes are "solid" is taken for a text
    file, whatever its length and whatever follows (binary records
    included): load_stl sets is_binary_file to False and, like every text
    load, leaves nothing that calculate_area or calculate_dimensions
    measure. *)
Theorem solid_header_is_read_as_text (fs : filesystem) (path : string)
  (s : self) (bs : list byte) :
  fs path = Some bs ->
  firstn 5 bs = list_byte_of_string "solid" ->
  let s' := state_after (load_stl fs path) s in
  _is_binary fs path = Return false
  /\ is_binary_file s' = Some false
  /\ (result_of calculate_area s' = Return None
      \/ result_of calculate_area s' = Raise TypeError)
  /\ (result_of calculate_dimensions s' = Return None
      \/ result_of calculate_dimensions s' = Raise TypeError).
Proof.
  intros Hfs Hsolid s'.
  assert (Hb : _is_binary fs path = Return false).
  { rewrite (is_binary_of_bytes fs path bs Hfs), (solid_prefix bs Hsolid).
    reflexivity. }
  split; [exact Hb |].
  split.
  - subst s'.
    destruct (result_of (load_body fs path) (entering false s))
      as [[] | e] eqn:Hbody.
    + rewrite (load_stl_success fs path s false Hb Hbody).
      unfold result_of, state_after in *.
      destruct (load_body fs path (entering false s)) as [r s1] eqn:E.
      cbn [fst snd] in *. subst r.
      apply text_body_count in E; [exact (proj1 E) | reflexivity].
    + rewrite (load_stl_failure fs path s false e Hb Hbody).
      cbn [is_binary_file with_triangles].
      rewrite (load_body_keeps_flag fs path (entering false s)).
      reflexivity.
  - destruct (text_branch_unmeasured fs path s Hb) as (Ha & Hd & _).
    split; assumption.
Qed.

(** A 19-byte text file, "solid a" and "endsolid a"; and the records of
    corner.stl behind an 80-byte header that starts with "solid". *)
Lemma solid_header_is_read_as_text_witness :
  let short : list byte :=
    list_byte_of_string ("solid a" ++ nl ++ "endsolid a" ++ nl) in
  let long : list byte :=
    list_byte_of_string "solid " ++ zeros 74 ++ skipn 80 corner_stl in
  let after (bs : list byte) :=
    state_after (load_stl (fun _ => Some bs) "solid.stl") __init__ in
  (List.length short = 19%nat
   /\ firstn 5 short = list_byte_of_string "solid"
   /\ firstn 5 long = list_byte_of_string "solid")
  /\ is_binary_file (after short) = Some false
  /\ is_binary_file (after long) = Some false
  /\ (result_of calculate_area (after long) = Return None
      \/ result_of calculate_area (after long) = Raise TypeError).
Proof.
  intros short long after.
  assert (H1 : firstn 5 short = list_byte_of_string "solid") by reflexivity.
  assert (H2 : firstn 5 long = list_byte_of_string "solid") by reflexivity.
  split; [repeat split; reflexivity |].
  destruct (solid_header_is_read_as_text (fun _ => Some short) "solid.stl"
              __init__ short eq_refl H1) as (_ & F1 & _).
  destruct (solid_header_is_read_as_text (fun _ => Some long) "solid.stl"
              __init__ long eq_refl H2) as (_ & F2 & A2 & _).
  split; [exact F1 |]. split; [exact F2 | exact A2].
Defined.

(** X20: a file of fewer than 84 bytes that does not start with "solid"
    fails to load (the count field cannot be read): the triangle list is
    left empty and the stored count is the one the engine had before. *)
Theorem headerless_binary_load_fails (fs : filesystem) (path : string)
  (s : self) (bs : list byte) :
  fs path = Some bs ->
  (List.length bs < 84)%nat ->
  startswith (string_of_list_byte (firstn 80 bs)) "solid" = false ->
  let s' := state_after (load_stl fs path) s in
  result_of (load_body fs path) (entering true s) = Raise StructError
  /\ _triangles s' = []
  /\ triangles_count s' = triangles_count s.
Proof.
  intros Hfs Hlen Hsolid s'.
  assert (Hb : _is_binary fs path = Return true).
  { unfold _is_binary, open_rb, read. rewrite Hfs.
    cbn [obind data pos fst skipn]. rewrite Hsolid. reflexivity. }
  assert (Hbody : load_body fs path (entering true s)
                  = (Raise StructError,
                     with_f (Some (mkfile bs
                                     (80 + List.length
                                             (firstn 4 (skipn 80 bs)))))
                            (entering true s))).
  { unfold load_body, _read_header, _read_length, bind, gets, lift, modify,
      open_rb, f_read, read, seek, tell.
    rewrite Hfs. cbn [entering is_binary_file with_triangles with_is_binary
                      with_f _f data pos fst snd].
    change (0 + 80)%nat with 80%nat.
    unfold unpack. cbn [calcsize].
    destruct (Nat.eqb_spec (List.length (firstn 4 (skipn 80 bs))) 4)
      as [E | _]; [| reflexivity].
    rewrite length_firstn, length_skipn in E. lia. }
  assert (Hres : result_of (load_body fs path) (entering true s)
                 = Raise StructError)
    by (unfold result_of; rewrite Hbody; reflexivity).
  split; [exact Hres |].
  subst s'. rewrite (load_stl_failure fs path s true StructError Hb Hres).
  unfold state_after. rewrite Hbody. split; reflexivity.
Qed.

(** The first 83 bytes of corner.stl, loaded over corner.stl. *)
Lemma headerless_binary_load_fails_witness :
  let fs : filesystem := fun _ => Some (firstn 83 corner_stl) in
  let s' := state_after (load_stl fs "cut.stl") corner_loaded in
  result_of (load_body fs "cut.stl") (entering true corner_loaded)
  = Raise StructError
  /\ _triangles s' = []
  /\ triangles_count s' = triangles_count corner_loaded.
Proof.
  intro fs.
  apply (headerless_binary_load_fails fs "cut.stl" corner_loaded
           (firstn 83 corner_stl)).
  - reflexivity.
  - vm_compute. lia.
  - vm_compute. reflexivity.
Defined.
